(** * Road Watcher: vehicle detection gate, motion pipeline and LED alerts

    A shallow embedding of [src/detector.py], [src/led_controller.py] and
    the camera factory of [src/camera.py].

    - Python values read from the JSON configuration are a small dynamic
      value type [pyval]; the configuration dict is a [gmap string pyval]
      (a dict nested in it, a list of its items).
    - Python floats (clock readings, durations, areas) are rationals [Q]:
      only their order and differences matter to the code.
    - Exceptions are explicit: a method of [VehicleDetector] returns the
      object after the call together with either a value or the exception
      that escaped.
    - Calls to collaborators (the LED controller, the image writer) made by
      the detector are recorded in the order they happen; what the file
      system answers is an interface ([FileSystem]).
    - The OpenCV functions the detector calls are an interface ([CV2]);
      thresholding, the morphological operators and numpy slicing are
      written out. *)

From Stdlib Require Import ZArith QArith Qround Lqa List Ascii String Bool Lia.
From stdpp Require Import base option gmap strings list.

Import ListNotations.
Local Open Scope string_scope.
Local Open Scope Z_scope.

(** ** Rational arithmetic with boolean tests *)

Definition Qltb (a b : Q) : bool :=
  (Qnum a * QDen b <? Qnum b * QDen a)%Z.

(** ** Python values and exceptions *)

#[local] Set Warnings "-register-all".

Inductive pyval : Type :=
| VNone
| VBool (b : bool)
| VInt (z : Z)
| VFloat (q : Q)
| VStr (s : string)
| VList (l : list pyval)
| VDict (d : list (string * pyval)).

Inductive exn : Type :=
| KeyError (key : string)
| TypeError
| ValueError
| JSONDecodeError
| AttributeError
| RuntimeError (msg : string)
| FileNotFoundError
| FileExistsError
| Cv2Error.

Inductive result (A : Type) : Type :=
| Return (a : A)
| Raise (e : exn).
Arguments Return {A} a.
Arguments Raise {A} e.

Definition rbind {A B} (r : result A) (k : A -> result B) : result B :=
  match r with
  | Return a => k a
  | Raise e => Raise e
  end.

Notation "'let*' x ':=' r 'in' k" := (rbind r (fun x => k))
  (at level 10, x name, r at level 100, k at level 200).

(** [bool(v)] *)
Definition truthy (v : pyval) : bool :=
  match v with
  | VNone => false
  | VBool b => b
  | VInt z => negb (z =? 0)%Z
  | VFloat q => negb (Qeq_bool q 0)
  | VStr s => negb (String.eqb s "")
  | VList l => match l with [] => false | _ => true end
  | VDict d => match d with [] => false | _ => true end
  end.

(** The number a value denotes in arithmetic and comparisons; [None] for the
    values on which [-], [<] and [>] raise [TypeError]. *)
Definition as_number (v : pyval) : option Q :=
  match v with
  | VBool b => Some (inject_Z (if b then 1 else 0))
  | VInt z => Some (inject_Z z)
  | VFloat q => Some q
  | _ => None
  end.

(** The integer a value denotes as a slice bound. *)
Definition as_index (v : pyval) : option Z :=
  match v with
  | VBool b => Some (if b then 1 else 0)
  | VInt z => Some z
  | _ => None
  end.

(** [d[key]] and [d.get(key)] on a dict *)
Definition getitem (d : gmap string pyval) (key : string) : result pyval :=
  match d !! key with
  | Some v => Return v
  | None => Raise (KeyError key)
  end.

Definition dict_get (d : gmap string pyval) (key : string) : pyval :=
  match d !! key with
  | Some v => v
  | None => VNone
  end.

(** [VehicleDetector._default_config] *)
Definition _default_config : gmap string pyval :=
  <["camera_index" := VInt 0]>
  (<["frame_width" := VInt 640]>
  (<["frame_height" := VInt 480]>
  (<["fps" := VInt 30]>
  (<["led_pin" := VInt 17]>
  (<["min_contour_area" := VInt 5000]>
  (<["detection_cooldown" := VFloat (2 # 1)]>
  (<["alert_duration" := VFloat (5 # 1)]>
  (<["bg_history" := VInt 500]>
  (<["var_threshold" := VInt 50]>
  (<["roi" := VNone]>
  (<["save_detections" := VBool false]>
  (<["detections_dir" := VStr "detections"]> ∅)))))))))))).

(** ** Images: numpy slicing, thresholding and morphology *)

(** An image is its rows, top to bottom; a colour frame holds the list of
    channel samples of each pixel, a single-channel image one sample. *)
Abbreviation image A := (list (list A)) (only parsing).
Abbreviation ndarray := (list (list (list Z))) (only parsing).
Abbreviation gray := (list (list Z)) (only parsing).

(** What [camera.read()] hands over as a frame: [None] or an array. *)
Inductive frame_val : Type :=
| FNone
| FArray (a : ndarray).

Definition pix {A} (m : image A) (r c : Z) : option A :=
  if (r <? 0) || (c <? 0) then None
  else match m !! Z.to_nat r with
       | Some row => row !! Z.to_nat c
       | None => None
       end.

(** A bound of a Python slice over a sequence of length [len]: negative
    bounds count from the end, and both ends are clamped. *)
Definition slice_bound (i len : Z) : Z :=
  if i <? 0 then Z.max 0 (i + len) else Z.min i len.

(** [l[i:j]] *)
Definition py_slice {A} (l : list A) (i j : Z) : list A :=
  let n := Z.of_nat (length l) in
  let a := slice_bound i n in
  let b := slice_bound j n in
  take (Z.to_nat (b - a)) (drop (Z.to_nat a) l).

(** [frame[y:y+h, x:x+w]] *)
Definition crop {A} (frame : image A) (x y w h : Z) : image A :=
  map (fun row => py_slice row x (x + w)) (py_slice frame y (y + h)).

(** [cv2.threshold(src, thresh, maxval, cv2.THRESH_BINARY)] *)
Definition threshold (src : gray) (thresh maxval : Z) : gray :=
  map (map (fun v => if thresh <? v then maxval else 0)) src.

(** A structuring element, as the offsets from its anchor of its non-zero
    entries (row offset, column offset). *)
Abbreviation kernel := (list (Z * Z)) (only parsing).

(** [cv2.getStructuringElement(cv2.MORPH_ELLIPSE, (5, 5))]:
<<
      0 0 1 0 0
      1 1 1 1 1
      1 1 1 1 1
      1 1 1 1 1
      0 0 1 0 0
>> *)
Definition MORPH_ELLIPSE_5x5 : kernel :=
  [(-2, 0);
   (-1, -2); (-1, -1); (-1, 0); (-1, 1); (-1, 2);
   (0, -2); (0, -1); (0, 0); (0, 1); (0, 2);
   (1, -2); (1, -1); (1, 0); (1, 1); (1, 2);
   (2, 0)].

(** The samples of [m] under the structuring element placed at [(r, c)];
    positions outside the image do not take part (the default border). *)
Definition samples (k : kernel) (m : gray) (r c : Z) : list Z :=
  omap (fun d : Z * Z => pix m (r + fst d) (c + snd d)) k.

Definition dilate (k : kernel) (m : gray) : gray :=
  imap (fun r row =>
    imap (fun c (_ : Z) =>
      fold_right Z.max 0 (samples k m (Z.of_nat r) (Z.of_nat c))) row) m.

Definition erode (k : kernel) (m : gray) : gray :=
  imap (fun r row =>
    imap (fun c (_ : Z) =>
      fold_right Z.min 255 (samples k m (Z.of_nat r) (Z.of_nat c))) row) m.

Inductive morph_op : Type := MORPH_CLOSE | MORPH_OPEN.

(** [cv2.morphologyEx(src, op, kernel)] *)
Definition morphologyEx (src : gray) (op : morph_op) (k : kernel) : gray :=
  match op with
  | MORPH_CLOSE => erode k (dilate k src)
  | MORPH_OPEN => dilate k (erode k src)
  end.

(** A mask without any foreground pixel. *)
Definition blank (m : gray) : Prop := Forall (Forall (fun v => v = 0)) m.

(** Two masks of one shape that agree on which pixels are strong foreground
    (above the binarisation threshold), whatever they hold elsewhere:
    background 0 or the grey value of a shadow. *)
Definition same_strong (m1 m2 : gray) : Prop :=
  Forall2 (Forall2 (fun a b => (250 <? a) = (250 <? b))) m1 m2.

(** ** The OpenCV functions the detector calls *)

Class CV2 : Type := {
  (** the state of a [BackgroundSubtractorMOG2] *)
  bg_model : Type;
  (** a contour as returned by [cv2.findContours] *)
  contour : Type;
  (** [cv2.createBackgroundSubtractorMOG2(history, varThreshold, detectShadows=True)] *)
  createBackgroundSubtractorMOG2 : pyval -> pyval -> result bg_model;
  (** [cv2.cvtColor(array, cv2.COLOR_BGR2GRAY)]; raises [cv2.error] on the
      arrays it rejects *)
  cvtColor_BGR2GRAY : ndarray -> result gray;
  (** [cv2.GaussianBlur(gray, (21, 21), 0)] *)
  GaussianBlur_21 : gray -> gray;
  (** [bg_subtractor.apply(image)]: the updated model and the mask *)
  bg_apply : bg_model -> gray -> bg_model * gray;
  (** [cv2.findContours(mask, cv2.RETR_EXTERNAL, cv2.CHAIN_APPROX_SIMPLE)] *)
  findContours : gray -> list contour;
  contourArea : contour -> Q;
  (** [cv2.boundingRect(contour)]: [(x, y, w, h)] *)
  boundingRect : contour -> Z * Z * Z * Z
}.

(** ** [src/detector.py] *)

Inductive level : Type := INFO | WARNING | ERROR.
Definition log_record : Type := level * string.

(** What [json.load] returns for the top-level value of the file. *)
Inductive json_doc : Type :=
| JObject (d : gmap string pyval)
| JOther (v : pyval).

(** The configuration file as [_load_config] finds it: absent, or present
    with the outcome of [json.load] on it. *)
Inductive config_file : Type :=
| Absent
| Present (parsed : result json_doc).

(** Calls made on the [LEDController] owned by the detector. *)
Inductive led_call : Type :=
| LedInit (pin : pyval)
| LedAlert (duration : pyval) (pattern : string)
| LedCleanup.

(** [self.camera]: [None], a [cv2.VideoCapture] (opened or not), or a
    released capture. *)
Inductive camera_state : Type :=
| CamNone
| CamCapture (opened : bool)
| CamReleased.

(** One iteration of the loop of [run] as the outside world supplies it:
    the pair returned by [camera.read()], and the clock and the ISO date
    that [handle_detection] reads if it is called. *)
Record tick : Type := {
  tick_ret : bool;
  tick_frame : frame_val;
  tick_time : Q;
  tick_stamp : string
}.

(** An entry of [detection_log]. *)
Record log_entry : Type := {
  timestamp : string;
  contour_count : nat
}.

(** What [_save_detection] did to the file system: a [mkdir] that
    returned, an image that [cv2.imwrite] wrote. *)
Inductive fs_event : Type :=
| Mkdir (dir : string)
| Imwrite (dir name : string) (frame : ndarray) (boxes : list (Z * Z * Z * Z)).

(** The file system as [_save_detection] finds it, after what the detector
    has done to it so far. *)
Class FileSystem : Type := {
  (** [Path(dir).mkdir(exist_ok=True)], [parents] being [False]: raises
      [FileNotFoundError] when the parent of [dir] is missing and
      [FileExistsError] when [dir] exists and is not a directory *)
  mkdir_exist_ok : list fs_event -> string -> result unit;
  (** [cv2.imwrite(str(dir / name), image)] for the frame with the boxes
      drawn on it: whether the file was written; raises [cv2.error] on an
      image it rejects *)
  imwrite : list fs_event -> string -> string -> ndarray ->
            list (Z * Z * Z * Z) -> result bool;
  (** [str(Path(dir) / name)]: the path as [pathlib] spells it *)
  path_str : string -> string -> string
}.

(** [timestamp.replace(':', '-')] *)
Fixpoint replace_colons (s : string) : string :=
  match s with
  | EmptyString => EmptyString
  | String c s' =>
      String (if Ascii.eqb c ":"%char then "-"%char else c) (replace_colons s')
  end.

(** [a < v] and [a > v] for a float [a] and a configuration value [v] *)
Definition py_lt (a : Q) (v : pyval) : result bool :=
  match as_number v with
  | Some q => Return (Qltb a q)
  | None => Raise TypeError
  end.

Definition py_gt (a : Q) (v : pyval) : result bool :=
  match as_number v with
  | Some q => Return (Qltb q a)
  | None => Raise TypeError
  end.

(** [x, y, w, h = roi]: a string unpacks into its characters, a dict into
    its keys. *)
Definition unpack4 (roi : pyval) : result (pyval * pyval * pyval * pyval) :=
  match roi with
  | VList [x; y; w; h] => Return (x, y, w, h)
  | VList _ => Raise ValueError
  | VStr (String x (String y (String w (String h EmptyString)))) =>
      Return (VStr (String x ""), VStr (String y ""),
              VStr (String w ""), VStr (String h ""))
  | VStr _ => Raise ValueError
  | VDict [(x, _); (y, _); (w, _); (h, _)] =>
      Return (VStr x, VStr y, VStr w, VStr h)
  | VDict _ => Raise ValueError
  | _ => Raise TypeError
  end.

(** [x, y, w, h = roi; frame = frame[y:y+h, x:x+w]] *)
Definition apply_roi (roi : pyval) (frame : frame_val) : result frame_val :=
  let* xywh := unpack4 roi in
  let '(x, y, w, h) := xywh in
  match as_index x, as_index y, as_index w, as_index h, frame with
  | Some x, Some y, Some w, Some h, FArray a => Return (FArray (crop a x y w h))
  | _, _, _, _, _ => Raise TypeError
  end.

Section Detector.
Context {cv : CV2} {fs : FileSystem}.

Record VehicleDetector : Type := {
  config : gmap string pyval;
  led : list led_call;
  camera : camera_state;
  bg_subtractor : bg_model;
  last_detection_time : Q;
  detection_log : list log_entry;
  (** collaborators outside the object: files written, log records *)
  saved : list fs_event;
  logged : list log_record
}.

Definition set_bg_subtractor (self : VehicleDetector) (bg : bg_model) :=
  {| config := config self; led := led self; camera := camera self;
     bg_subtractor := bg;
     last_detection_time := last_detection_time self;
     detection_log := detection_log self;
     saved := saved self; logged := logged self |}.

Definition set_last_detection_time (self : VehicleDetector) (t : Q) :=
  {| config := config self; led := led self; camera := camera self;
     bg_subtractor := bg_subtractor self;
     last_detection_time := t;
     detection_log := detection_log self;
     saved := saved self; logged := logged self |}.

Definition led_do (self : VehicleDetector) (c : led_call) :=
  {| config := config self; led := led self ++ [c]; camera := camera self;
     bg_subtractor := bg_subtractor self;
     last_detection_time := last_detection_time self;
     detection_log := detection_log self;
     saved := saved self; logged := logged self |}.

Definition log_append (self : VehicleDetector) (e : log_entry) :=
  {| config := config self; led := led self; camera := camera self;
     bg_subtractor := bg_subtractor self;
     last_detection_time := last_detection_time self;
     detection_log := detection_log self ++ [e];
     saved := saved self; logged := logged self |}.

Definition fs_do (self : VehicleDetector) (e : fs_event) :=
  {| config := config self; led := led self; camera := camera self;
     bg_subtractor := bg_subtractor self;
     last_detection_time := last_detection_time self;
     detection_log := detection_log self;
     saved := saved self ++ [e]; logged := logged self |}.

Definition logger (self : VehicleDetector) (l : level) (msg : string) :=
  {| config := config self; led := led self; camera := camera self;
     bg_subtractor := bg_subtractor self;
     last_detection_time := last_detection_time self;
     detection_log := detection_log self;
     saved := saved self; logged := logged self ++ [(l, msg)] |}.

Definition set_camera (self : VehicleDetector) (c : camera_state) :=
  {| config := config self; led := led self; camera := c;
     bg_subtractor := bg_subtractor self;
     last_detection_time := last_detection_time self;
     detection_log := detection_log self;
     saved := saved self; logged := logged self |}.

(** [VehicleDetector._load_config]: the log records written and the value
    returned. *)
Definition _load_config (file : config_file) : list log_record * result json_doc :=
  match file with
  | Present parsed => ([], parsed)
  | Absent =>
      ([(WARNING, "Config not found, using defaults")],
       Return (JObject _default_config))
  end.

(** [self.config[key]] while [self.config] is whatever [_load_config]
    returned. *)
Definition doc_getitem (doc : json_doc) (key : string) : result pyval :=
  match doc with
  | JObject d => getitem d key
  | JOther _ => Raise TypeError
  end.

(** [VehicleDetector.__init__] *)
Definition __init__ (file : config_file) : result VehicleDetector :=
  let '(records, loaded) := _load_config file in
  let* doc := loaded in
  let* pin := doc_getitem doc "led_pin" in
  let* history := doc_getitem doc "bg_history" in
  let* var_threshold := doc_getitem doc "var_threshold" in
  let* bg := createBackgroundSubtractorMOG2 history var_threshold in
  match doc with
  | JObject d =>
      Return {| config := d;
                led := [LedInit pin];
                camera := CamNone;
                bg_subtractor := bg;
                last_detection_time := 0;
                detection_log := [];
                saved := [];
                logged := records |}
  | JOther _ => Raise TypeError
  end.

(** The list comprehension of [detect_motion]: the configuration is read
    and compared once per contour. *)
Fixpoint significant (cfg : gmap string pyval) (contours : list contour)
  : result (list contour) :=
  match contours with
  | [] => Return []
  | c :: rest =>
      let* min_area := getitem cfg "min_contour_area" in
      let* keep := py_gt (contourArea c) min_area in
      let* rest' := significant cfg rest in
      Return (if keep then c :: rest' else rest')
  end.

(** [VehicleDetector.detect_motion] *)
Definition detect_motion (self : VehicleDetector) (frame : frame_val)
  : result (bool * list contour) * VehicleDetector :=
  let roi := dict_get (config self) "roi" in
  match (if truthy roi then apply_roi roi frame else Return frame) with
  | Raise e => (Raise e, self)
  | Return frame =>
      match (match frame with
             | FNone => Raise Cv2Error
             | FArray a => cvtColor_BGR2GRAY a
             end) with
      | Raise e => (Raise e, self)
      | Return gray =>
          let blurred := GaussianBlur_21 gray in
          let '(bg, fg_mask) := bg_apply (bg_subtractor self) blurred in
          let self := set_bg_subtractor self bg in
          let fg_mask := threshold fg_mask 250 255 in
          let kernel := MORPH_ELLIPSE_5x5 in
          let fg_mask := morphologyEx fg_mask MORPH_CLOSE kernel in
          let fg_mask := morphologyEx fg_mask MORPH_OPEN kernel in
          let contours := findContours fg_mask in
          match significant (config self) contours with
          | Raise e => (Raise e, self)
          | Return significant_contours =>
              (Return (Nat.ltb 0 (length significant_contours),
                       significant_contours), self)
          end
      end
  end.

(** [VehicleDetector._save_detection] *)
Definition _save_detection (self : VehicleDetector) (frame : frame_val)
    (contours : list contour) (timestamp : string)
  : result unit * VehicleDetector :=
  match getitem (config self) "detections_dir" with
  | Raise e => (Raise e, self)
  | Return (VStr detections_dir) =>
      match mkdir_exist_ok (saved self) detections_dir with
      | Raise e => (Raise e, self)
      | Return _ =>
          let self := fs_do self (Mkdir detections_dir) in
          match frame with
          | FNone => (Raise AttributeError, self)
          | FArray frame_copy =>
              let boxes :=
                map (fun c => let '(x, y, w, h) := boundingRect c in
                              (x, y, x + w, y + h)) contours in
              let filename :=
                "detection_" ++ replace_colons timestamp ++ ".jpg" in
              match imwrite (saved self) detections_dir filename
                      frame_copy boxes with
              | Raise e => (Raise e, self)
              | Return written =>
                  (* the value [cv2.imwrite] returns is not looked at *)
                  let self :=
                    if written : bool
                    then fs_do self
                           (Imwrite detections_dir filename frame_copy boxes)
                    else self in
                  (Return tt,
                   logger self INFO
                     ("Saved detection image: "
                        ++ path_str detections_dir filename))
              end
          end
      end
  | Return _ => (Raise TypeError, self)
  end.

(** [VehicleDetector.handle_detection]; [current_time] is what
    [time.time()] returns and [timestamp] what
    [datetime.now().isoformat()] returns during the call. *)
Definition handle_detection (self : VehicleDetector)
    (current_time : Q) (timestamp : string)
    (frame : frame_val) (contours : list contour)
  : result unit * VehicleDetector :=
  match getitem (config self) "detection_cooldown" with
  | Raise e => (Raise e, self)
  | Return cooldown =>
      match py_lt (current_time - last_detection_time self)%Q cooldown with
      | Raise e => (Raise e, self)
      | Return true => (Return tt, self)
      | Return false =>
          let self := set_last_detection_time self current_time in
          let self := logger self INFO ("Vehicle detected at " ++ timestamp) in
          match getitem (config self) "alert_duration" with
          | Raise e => (Raise e, self)
          | Return duration =>
              let self := led_do self (LedAlert duration "solid") in
              let self :=
                log_append self {| timestamp := timestamp;
                                   contour_count := length contours |} in
              if truthy (dict_get (config self) "save_detections")
              then _save_detection self frame contours timestamp
              else (Return tt, self)
          end
      end
  end.

(** [VehicleDetector.start_camera]; [opened] is what
    [self.camera.isOpened()] answers. *)
Definition start_camera (self : VehicleDetector) (opened : bool)
  : result unit * VehicleDetector :=
  match getitem (config self) "camera_index" with
  | Raise e => (Raise e, self)
  | Return _ =>
      let self := set_camera self (CamCapture opened) in
      match (let* _w := getitem (config self) "frame_width" in
             let* _h := getitem (config self) "frame_height" in
             getitem (config self) "fps") with
      | Raise e => (Raise e, self)
      | Return _ =>
          if negb opened then (Raise (RuntimeError "Failed to open camera"), self)
          else (Return tt, logger self INFO "Camera started successfully")
      end
  end.

(** [VehicleDetector.stop_camera] *)
Definition stop_camera (self : VehicleDetector) : VehicleDetector :=
  match camera self with
  | CamNone => self
  | _ => logger (set_camera self CamReleased) INFO "Camera stopped"
  end.

(** The body of the [while True] loop of [run]. *)
Definition run_step (self : VehicleDetector) (t : tick)
  : result unit * VehicleDetector :=
  if negb (tick_ret t) then
    (Return tt, logger self ERROR "Failed to read frame")
  else
    match detect_motion self (tick_frame t) with
    | (Raise e, self) => (Raise e, self)
    | (Return (detected, contours), self) =>
        if detected : bool then
          handle_detection self (tick_time t) (tick_stamp t)
            (tick_frame t) contours
        else (Return tt, self)
    end.

(** The loop of [run] over the iterations that happen before the
    [KeyboardInterrupt]; an exception ends it early. *)
Fixpoint run_loop (self : VehicleDetector) (ticks : list tick)
  : result unit * VehicleDetector :=
  match ticks with
  | [] => (Return tt, self)
  | t :: rest =>
      match run_step self t with
      | (Raise e, self) => (Raise e, self)
      | (Return _, self) => run_loop self rest
      end
  end.

(** [VehicleDetector.run] *)
Definition run (self : VehicleDetector) (opened : bool) (ticks : list tick)
  : result unit * VehicleDetector :=
  let self := logger self INFO "Starting vehicle detection..." in
  match start_camera self opened with
  | (Raise e, self) => (Raise e, self)
  | (Return _, self) =>
      let '(r, self) := run_loop self ticks in
      let self :=
        match r with
        | Return _ => logger self INFO "Shutting down..."
        | Raise _ => self
        end in
      let self := stop_camera self in
      let self := led_do self LedCleanup in
      (r, self)
  end.

End Detector.

(** ** [src/led_controller.py]

    The controller and the threads it starts are a transition system.
    One transition is one statement of one thread, taking place at a
    given time; a run is the list of its transitions in the order they
    happen.  A statement that reads the clock reads the time of its
    transition.  [time.sleep(d)] returns no earlier than [d] after the
    thread's previous statement; nothing bounds it from above.
    [join(timeout=1.0)] returns when the thread has ended, or gives up
    once 1.0 s have passed.  The caller's part covers [alert] and
    [stop_alert].  The [duration] of an alert is whatever value the caller
    passes (the detector passes [config["alert_duration"]] as it is): the
    thread's loop test [time.time() - start_time < duration] raises
    [TypeError] when it is not a number, which ends the thread there. *)

(** The statement of [_run_alert] a thread is about to execute. *)
Inductive pc : Type :=
| P_start         (* start_time = time.time(); if pattern == "blink" *)
| P_solid_on      (* self.on() *)
| P_solid_cond    (* while time.time() - start_time < duration *)
| P_solid_check   (* if self._stop_alert.is_set(): break *)
| P_solid_sleep   (* time.sleep(0.1) *)
| P_blink_cond    (* while time.time() - start_time < duration *)
| P_blink_check   (* if self._stop_alert.is_set(): break *)
| P_blink_for     (* blink(times=1): if self._stop_alert.is_set(): break *)
| P_blink_on      (* self.on() *)
| P_blink_sleep1  (* time.sleep(interval) *)
| P_blink_off     (* self.off() *)
| P_blink_sleep2  (* time.sleep(interval) *)
| P_off           (* self.off() *)
| P_done.         (* _run_alert has returned, or an exception has ended it *)

Record alert_thread : Type := {
  duration : pyval;
  pattern : string;
  start_time : Q;
  at_pc : pc;
  (** when the thread executed its previous statement (or was started) *)
  last_step : Q
}.

(** [Thread.is_alive()] *)
Definition is_alive (th : alert_thread) : bool :=
  match at_pc th with
  | P_done => false
  | _ => true
  end.

(** Where the thread that uses the controller is. *)
Inductive caller_pc : Type :=
| C_idle
| C_alert_alive (d : pyval) (p : string)  (* if self._alert_thread and ...is_alive() *)
| C_alert_join (d : pyval) (p : string) (since : Q)  (* ...join(timeout=1.0) *)
| C_alert_clear (d : pyval) (p : string)  (* self._stop_alert.clear() *)
| C_alert_start (d : pyval) (p : string)  (* Thread(target=_run_alert).start() *)
| C_stop_off.                         (* self.off() of stop_alert *)

Record LEDController : Type := {
  (** the level last written to the pin by [gpio.output] *)
  pin_level : bool;
  _stop_alert : bool;
  (** [self._alert_thread], as an index into [threads] *)
  _alert_thread : option nat;
  (** every thread started so far *)
  threads : list alert_thread;
  caller : caller_pc;
  clock : Q;
  (** every [gpio.output]: who wrote (a thread, or the caller), when, what *)
  writes : list (option nat * Q * bool)
}.

Inductive event : Type :=
| Call_alert (d : pyval) (p : string)  (* enter alert(): self._stop_alert.set() *)
| Call_stop_alert                  (* enter stop_alert(): self._stop_alert.set() *)
| Caller_step                      (* the caller's next statement *)
| Join_timeout                     (* join gives up *)
| Thread_step (i : nat).           (* the next statement of thread i *)

Definition Qleb (a b : Q) : bool := negb (Qltb b a).

Definition set_caller (c : LEDController) (k : caller_pc) : LEDController :=
  {| pin_level := pin_level c; _stop_alert := _stop_alert c;
     _alert_thread := _alert_thread c; threads := threads c;
     caller := k; clock := clock c; writes := writes c |}.

Definition set_stop (c : LEDController) (b : bool) : LEDController :=
  {| pin_level := pin_level c; _stop_alert := b;
     _alert_thread := _alert_thread c; threads := threads c;
     caller := caller c; clock := clock c; writes := writes c |}.

Definition set_clock (c : LEDController) (t : Q) : LEDController :=
  {| pin_level := pin_level c; _stop_alert := _stop_alert c;
     _alert_thread := _alert_thread c; threads := threads c;
     caller := caller c; clock := t; writes := writes c |}.

(** [gpio.output(self.pin, level)] by [who] *)
Definition output (c : LEDController) (who : option nat) (b : bool)
  : LEDController :=
  {| pin_level := b; _stop_alert := _stop_alert c;
     _alert_thread := _alert_thread c; threads := threads c;
     caller := caller c; clock := clock c;
     writes := writes c ++ [(who, clock c, b)] |}.

Definition set_thread (c : LEDController) (i : nat) (th : alert_thread)
  : LEDController :=
  {| pin_level := pin_level c; _stop_alert := _stop_alert c;
     _alert_thread := _alert_thread c; threads := <[i := th]> (threads c);
     caller := caller c; clock := clock c; writes := writes c |}.

Definition spawn (c : LEDController) (th : alert_thread) : LEDController :=
  {| pin_level := pin_level c; _stop_alert := _stop_alert c;
     _alert_thread := Some (length (threads c));
     threads := threads c ++ [th];
     caller := caller c; clock := clock c; writes := writes c |}.

Definition goto (th : alert_thread) (t : Q) (p : pc) : alert_thread :=
  {| duration := duration th; pattern := pattern th;
     start_time := start_time th; at_pc := p; last_step := t |}.

(** [LEDController.__init__]: the pin is set low. *)
Definition led_init (t : Q) : LEDController :=
  {| pin_level := false; _stop_alert := false; _alert_thread := None;
     threads := []; caller := C_idle; clock := t;
     writes := [(None, t, false)] |}.

(** Whether [self._alert_thread and self._alert_thread.is_alive()]. *)
Definition current_alive (c : LEDController) : bool :=
  match _alert_thread c with
  | Some i =>
      match threads c !! i with
      | Some th => is_alive th
      | None => false
      end
  | None => false
  end.

(** The next statement of thread [i], at the controller's clock.  An
    exception raised by the loop test is not caught anywhere: the thread
    ends where it is, without its [self.off()]. *)
Definition thread_step (c : LEDController) (i : nat) : option LEDController :=
  let t := clock c in
  match threads c !! i with
  | None => None
  | Some th =>
      let move p := Some (set_thread c i (goto th t p)) in
      let woken d := Qleb (last_step th + d) t in
      let loop_test body :=
        match py_lt (t - start_time th) (duration th) with
        | Return true => body
        | Return false => P_off
        | Raise _ => P_done
        end in
      match at_pc th with
      | P_start =>
          Some (set_thread c i
            {| duration := duration th; pattern := pattern th;
               start_time := t;
               at_pc := if String.eqb (pattern th) "blink"
                        then P_blink_cond else P_solid_on;
               last_step := t |})
      | P_solid_on => Some (set_thread (output c (Some i) true) i (goto th t P_solid_cond))
      | P_solid_cond => move (loop_test P_solid_check)
      | P_solid_check => move (if _stop_alert c then P_off else P_solid_sleep)
      | P_solid_sleep => if woken (1 # 10) then move P_solid_cond else None
      | P_blink_cond => move (loop_test P_blink_check)
      | P_blink_check => move (if _stop_alert c then P_off else P_blink_for)
      | P_blink_for => move (if _stop_alert c then P_blink_cond else P_blink_on)
      | P_blink_on => Some (set_thread (output c (Some i) true) i (goto th t P_blink_sleep1))
      | P_blink_sleep1 => if woken (2 # 10) then move P_blink_off else None
      | P_blink_off => Some (set_thread (output c (Some i) false) i (goto th t P_blink_sleep2))
      | P_blink_sleep2 => if woken (2 # 10) then move P_blink_cond else None
      | P_off => Some (set_thread (output c (Some i) false) i (goto th t P_done))
      | P_done => None
      end
  end.

(** The caller's next statement inside [alert] or [stop_alert]. *)
Definition caller_step (c : LEDController) : option LEDController :=
  match caller c with
  | C_idle => None
  | C_alert_alive d p =>
      Some (set_caller c (if current_alive c
                          then C_alert_join d p (clock c)
                          else C_alert_clear d p))
  | C_alert_join d p _ =>
      if current_alive c then None
      else Some (set_caller c (C_alert_clear d p))
  | C_alert_clear d p =>
      Some (set_caller (set_stop c false) (C_alert_start d p))
  | C_alert_start d p =>
      Some (set_caller
              (spawn c {| duration := d; pattern := p; start_time := 0;
                          at_pc := P_start; last_step := clock c |})
              C_idle)
  | C_stop_off => Some (set_caller (output c None false) C_idle)
  end.

(** One transition at time [t]; [None] when it cannot take place there. *)
Definition led_step (c : LEDController) (te : Q * event) : option LEDController :=
  let '(t, e) := te in
  if negb (Qleb (clock c) t) then None
  else
    let c := set_clock c t in
    match e with
    | Call_alert d p =>
        match caller c with
        | C_idle => Some (set_caller (set_stop c true) (C_alert_alive d p))
        | _ => None
        end
    | Call_stop_alert =>
        match caller c with
        | C_idle => Some (set_caller (set_stop c true) C_stop_off)
        | _ => None
        end
    | Caller_step => caller_step c
    | Join_timeout =>
        match caller c with
        | C_alert_join d p since =>
            if current_alive c && Qleb (since + 1) t
            then Some (set_caller c (C_alert_clear d p))
            else None
        | _ => None
        end
    | Thread_step i => thread_step c i
    end.

Fixpoint led_exec (c : LEDController) (run : list (Q * event))
  : option LEDController :=
  match run with
  | [] => Some c
  | te :: rest =>
      match led_step c te with
      | Some c' => led_exec c' rest
      | None => None
      end
  end.

(** A value that is a number, for which the loop test of [_run_alert] can
    be evaluated. *)
Definition is_number (v : pyval) : bool :=
  match as_number v with
  | Some _ => true
  | None => false
  end.

(** The threads that have been started and have not ended. *)
Definition alive_threads (c : LEDController) : list nat :=
  List.filter (fun i => match threads c !! i with
                        | Some th => is_alive th
                        | None => false
                        end)
              (seq 0 (length (threads c))).

(** [alert(duration, pattern)] called at time [t] on an idle controller
    whose previous thread, if any, has ended. *)
Definition alert_call (t : Q) (d : pyval) (p : string) : list (Q * event) :=
  [(t, Call_alert d p); (t, Caller_step); (t, Caller_step); (t, Caller_step)].

(** ** Derived notions used in the statements *)

Section Notions.
Context {cv : CV2} {fs : FileSystem}.

(** The loop iteration [t], run from [self], accepts a detection: it
    appends an entry to [detection_log]. *)
Definition accepts (self : VehicleDetector) (t : tick) : bool :=
  Nat.ltb (length (detection_log self))
          (length (detection_log (snd (run_step self t)))).

(** Whether [handle_detection] called at each of the given clock readings
    in turn accepts, and the detector afterwards. *)
Fixpoint submit_all (self : VehicleDetector) (times : list Q)
    (frame : frame_val) (contours : list contour)
  : list bool * VehicleDetector :=
  match times with
  | [] => ([], self)
  | now :: rest =>
      let self' := snd (handle_detection self now "" frame contours) in
      let accepted :=
        Nat.ltb (length (detection_log self)) (length (detection_log self')) in
      let '(flags, final) := submit_all self' rest frame contours in
      (accepted :: flags, final)
  end.

(** The mask [detect_motion] hands to [cv2.findContours], as a function of
    the mask the background model returned. *)
Definition cleaned_mask (fg_mask : gray) : gray :=
  morphologyEx
    (morphologyEx (threshold fg_mask 250 255) MORPH_CLOSE MORPH_ELLIPSE_5x5)
    MORPH_OPEN MORPH_ELLIPSE_5x5.

(** [detect_motion] from the grey-scale conversion to [cv2.findContours]:
    the contours found in [frame], and the detector with its background
    model updated. *)
Definition extract_contours (self : VehicleDetector) (frame : frame_val)
  : result (list contour) * VehicleDetector :=
  match frame with
  | FNone => (Raise Cv2Error, self)
  | FArray a =>
      match cvtColor_BGR2GRAY a with
      | Raise e => (Raise e, self)
      | Return g =>
          let '(bg, fg_mask) := bg_apply (bg_subtractor self) (GaussianBlur_21 g) in
          (Return (findContours (cleaned_mask fg_mask)),
           set_bg_subtractor self bg)
      end
  end.

(** [detect_motion] after its region-of-interest step: everything it does
    with the frame it was left with. *)
Definition detect_in (self : VehicleDetector) (frame : frame_val)
  : result (bool * list contour) * VehicleDetector :=
  match extract_contours self frame with
  | (Raise e, s) => (Raise e, s)
  | (Return contours, s) =>
      match significant (config s) contours with
      | Raise e => (Raise e, s)
      | Return sig => (Return (Nat.ltb 0 (length sig), sig), s)
      end
  end.

(** The regions [detect_motion] extracts from a frame: the contours of the
    frame after the region-of-interest step. *)
Definition regions (self : VehicleDetector) (frame : frame_val)
  : result (list contour) * VehicleDetector :=
  let roi := dict_get (config self) "roi" in
  match (if truthy roi then apply_roi roi frame else Return frame) with
  | Raise e => (Raise e, self)
  | Return f => extract_contours self f
  end.

(** The rectangles [_save_detection] draws, one per contour: the corners
    [(x, y)] and [(x+w, y+h)] it passes to [cv2.rectangle]. *)
Definition drawn_boxes (contours : list contour) : list (Z * Z * Z * Z) :=
  map (fun c => let '(x, y, w, h) := boundingRect c in
                (x, y, x + w, y + h)) contours.

(** The name of the snapshot of a detection. *)
Definition snapshot_name (timestamp : string) : string :=
  "detection_" ++ replace_colons timestamp ++ ".jpg".

(** The area of a region exceeds the configured [min_contour_area]. *)
Definition exceeds (cfg : gmap string pyval) (c : contour) : Prop :=
  exists v m,
    cfg !! "min_contour_area" = Some v /\
    as_number v = Some m /\
    (m < contourArea c)%Q.

(** No region of any frame that the loop processes exceeds the minimum
    area. *)
Fixpoint never_exceeds (self : VehicleDetector) (ticks : list tick) : Prop :=
  match ticks with
  | [] => True
  | t :: rest =>
      if tick_ret t then
        match regions self (tick_frame t) with
        | (Return contours, s) =>
            (forall c, In c contours -> ~ exceeds (config self) c) /\
            never_exceeds s rest
        | (Raise _, _) => True
        end
      else never_exceeds (logger self ERROR "Failed to read frame") rest
  end.

End Notions.

(** ** A small stand-in for OpenCV, to evaluate the detector on concrete
    frames

    Grey level is the mean of the channels; the background model hands the
    image back as its mask and counts the frames; a contour is a row of the
    mask with its non-zero pixels, and its area their number. *)

Definition sim_cvtColor (a : ndarray) : result gray :=
  match a with
  | [] | [] :: _ => Raise Cv2Error
  | _ =>
      if forallb (forallb (fun px : list Z => (length px =? 3)%nat)) a
      then Return (map (map (fun px : list Z => fold_right Z.add 0 px / 3)) a)
      else Raise Cv2Error
  end.

Definition sim_findContours (m : gray) : list (Z * Z) :=
  omap (fun rc : nat * list Z =>
          let n := length (List.filter (fun v => negb (v =? 0)) (snd rc)) in
          if (n =? 0)%nat then None else Some (Z.of_nat (fst rc), Z.of_nat n))
       (imap (fun r row => (r, row)) m).

Definition SimCV : CV2 :=
  {| bg_model := nat;
     contour := Z * Z;
     createBackgroundSubtractorMOG2 := fun _ _ => Return 0%nat;
     cvtColor_BGR2GRAY := sim_cvtColor;
     GaussianBlur_21 := fun g => g;
     bg_apply := fun n g => (S n, g);
     findContours := sim_findContours;
     contourArea := fun c => inject_Z (snd c);
     boundingRect := fun c => (0, fst c, snd c, 1) |}.

(** A stand-in for the file system: the working directory exists and is
    writable and holds nothing else, so that a directory can be made in it
    but not below a directory that was not made before; an image is written
    where the directory was made, unless it is empty. *)
Definition sim_mkdir (done : list fs_event) (dir : string) : result unit :=
  match index 0 "/" dir with
  | None => Return tt
  | Some n =>
      if existsb (fun e => match e with
                           | Mkdir d => String.eqb d (substring 0 n dir)
                           | _ => false
                           end) done
      then Return tt
      else Raise FileNotFoundError
  end.

Definition sim_imwrite (done : list fs_event) (dir name : string)
    (frame : ndarray) (boxes : list (Z * Z * Z * Z)) : result bool :=
  match frame with
  | [] | [] :: _ => Raise Cv2Error
  | _ => Return (existsb (fun e => match e with
                                   | Mkdir d => String.eqb d dir
                                   | _ => false
                                   end) done)
  end.

Definition SimFS : FileSystem :=
  {| mkdir_exist_ok := sim_mkdir; imwrite := sim_imwrite;
     path_str := fun dir name => dir ++ "/" ++ name |}.

(** The detector that [VehicleDetector()] builds when there is no
    [config.json]. *)
Definition sim_detector : @VehicleDetector SimCV :=
  {| config := _default_config;
     led := [LedInit (VInt 17)];
     camera := CamNone;
     bg_subtractor := (0%nat : @bg_model SimCV);
     last_detection_time := 0;
     detection_log := [];
     saved := [];
     logged := [(WARNING, "Config not found, using defaults")] |}.

(** The same with another configuration. *)
Definition sim_detector_with (cfg : gmap string pyval) : @VehicleDetector SimCV :=
  {| config := cfg;
     led := [LedInit (VInt 17)];
     camera := CamNone;
     bg_subtractor := (0%nat : @bg_model SimCV);
     last_detection_time := 0;
     detection_log := [];
     saved := [];
     logged := [] |}.

(** A detector with a minimum area small enough for the frames below. *)
Definition sim_gate_detector : @VehicleDetector SimCV :=
  sim_detector_with
    (<["min_contour_area" := VInt 2]>
    (<["detection_cooldown" := VFloat (2 # 1)]>
    (<["alert_duration" := VFloat (5 # 1)]> ∅))).

(** A 3x3 colour frame that is white on its middle row. *)
Definition stripe_frame : frame_val :=
  FArray [[[0; 0; 0]; [0; 0; 0]; [0; 0; 0]];
          [[255; 255; 255]; [255; 255; 255]; [255; 255; 255]];
          [[0; 0; 0]; [0; 0; 0]; [0; 0; 0]]].

(** A successful read of [stripe_frame] at clock reading [now]. *)
Definition stripe_tick (now : Q) : tick :=
  {| tick_ret := true; tick_frame := stripe_frame;
     tick_time := now; tick_stamp := "2024-05-01T10:00:00" |}.

(** A failed read. *)
Definition failed_tick : tick :=
  {| tick_ret := false; tick_frame := FNone;
     tick_time := 0; tick_stamp := "" |}.

(** A 2x2 colour frame of mid grey, the value a shadow has in the mask. *)
Definition shadow_frame : frame_val :=
  FArray [[[127; 127; 127]; [127; 127; 127]];
          [[127; 127; 127]; [0; 0; 0]]].


(** A run in which every duration passed to [alert] is a number. *)
Definition numeric_run (run : list (Q * event)) : Prop :=
  Forall (fun te : Q * event =>
            match snd te with
            | Call_alert d _ => is_number d = true
            | _ => True
            end) run.

(** Every alert started so far, or being started, has a number for its
    duration. *)
Definition numeric (c : LEDController) : Prop :=
  (forall i th, threads c !! i = Some th -> is_number (duration th) = true) /\
  match caller c with
  | C_alert_alive d _ | C_alert_join d _ _
  | C_alert_clear d _ | C_alert_start d _ => is_number d = true
  | _ => True
  end.





(** Thread [i] has ended. *)
Definition ended (c : LEDController) (i : nat) : Prop :=
  exists th, threads c !! i = Some th /\ at_pc th = P_done.

(** A second [alert] whose [join] gives up: the first thread oversleeps its
    [time.sleep(0.1)] by a second, the caller's wait of 1.0 s runs out, the
    stop signal is cleared and the second thread is started next to the
    first. *)
Definition overlap_run : list (Q * event) :=
  alert_call 0 (VFloat (2 # 1)) "solid" ++
  [(0, Thread_step 0); (0, Thread_step 0);
   (0, Thread_step 0); (0, Thread_step 0);
   (1 # 20, Call_alert (VFloat (5 # 1)) "solid");
   (1 # 20, Caller_step);
   (21 # 20, Join_timeout);
   (21 # 20, Caller_step);
   (21 # 20, Caller_step)]%Q.

(** What follows: the second thread switches the LED on and polls; the
    first wakes up, finds the stop signal cleared, runs to its own
    deadline and switches the LED off under the second. *)
Definition overlap_rest : list (Q * event) :=
  [(21 # 20, Thread_step 1); (21 # 20, Thread_step 1);
   (21 # 20, Thread_step 1); (21 # 20, Thread_step 1);
   (22 # 20, Thread_step 0); (22 # 20, Thread_step 0);
   (22 # 20, Thread_step 0);
   (2 # 1, Thread_step 0); (2 # 1, Thread_step 0);
   (2 # 1, Thread_step 0)]%Q.



(** A second [alert] whose [join] returns because the first thread saw the
    stop signal at its next poll. *)
Definition preempt_run : list (Q * event) :=
  alert_call 0 (VFloat (2 # 1)) "solid" ++
  [(0, Thread_step 0); (0, Thread_step 0);
   (0, Thread_step 0); (0, Thread_step 0);
   (1 # 20, Call_alert (VFloat (5 # 1)) "solid");
   (1 # 20, Caller_step);
   (1 # 10, Thread_step 0); (1 # 10, Thread_step 0);
   (1 # 10, Thread_step 0); (1 # 10, Thread_step 0);
   (1 # 10, Caller_step);
   (1 # 10, Caller_step);
   (1 # 10, Caller_step)]%Q.

(** What holds of the controller as long as no [join] gives up and the
    durations are numbers: a thread that has not ended is the one
    [_alert_thread] refers to; while the caller is between its [join] and
    the start of the new thread every thread has ended; the pin is high
    only while some thread runs; and the stop signal is set while [alert]
    tests or awaits the old thread. *)
Definition led_inv (c : LEDController) : Prop :=
  (forall i th,
      threads c !! i = Some th -> is_alive th = true ->
      _alert_thread c = Some i) /\
  (match caller c with
   | C_alert_clear _ _ | C_alert_start _ _ =>
       forall i th, threads c !! i = Some th -> is_alive th = false
   | _ => True
   end) /\
  (pin_level c = true ->
   exists i th, threads c !! i = Some th /\ is_alive th = true) /\
  (match caller c with
   | C_alert_alive _ _ | C_alert_join _ _ _ => _stop_alert c = true
   | _ => True
   end).







(** A new controller on which [alert(duration=0.15, pattern="solid")] was
    called at time 0 and has reached [self._stop_alert.clear()]. *)
Definition solid_clearing : LEDController :=
  {| pin_level := false; _stop_alert := true; _alert_thread := None;
     threads := [];
     caller := C_alert_clear (VFloat (15 # 100)) "solid"; clock := 0;
     writes := [(None, 0%Q, false)] |}.

(** ** Further notions: the controller *)

(** A run made of statements of thread [i] only. *)
Definition statements_of (i : nat) (run : list (Q * event)) : Prop :=
  Forall (fun te : Q * event => snd te = Thread_step i) run.

(** [n] statements of thread [i], the first at time [t] and each one [d]
    after the one before. *)
Fixpoint statements_every (d : Q) (i : nat) (t : Q) (n : nat)
  : list (Q * event) :=
  match n with
  | O => []
  | S n' => (t, Thread_step i) :: statements_every d i (t + d)%Q n'
  end.

(** How many statements a thread still executes at most once the stop
    signal is set and stays set. *)
Definition stop_rank (p : pc) : nat :=
  match p with
  | P_done => 0
  | P_off => 1
  | P_solid_check | P_blink_check => 2
  | P_solid_cond | P_blink_cond => 3
  | P_solid_sleep | P_solid_on | P_blink_for | P_blink_sleep2 => 4
  | P_start | P_blink_off => 5
  | P_blink_sleep1 => 6
  | P_blink_on => 7
  end.

(** [alert(duration=2.0, pattern="blink")] at time 0; the thread gets as far
    as the [self.on()] of its first blink; then [stop_alert()] is called. *)
Definition cancel_run : list (Q * event) :=
  alert_call 0 (VFloat (2 # 1)) "blink" ++
  [(0, Thread_step 0); (0, Thread_step 0);
   (0, Thread_step 0); (0, Thread_step 0);
   (1 # 20, Call_stop_alert); (1 # 20, Caller_step)]%Q.



(** The controller right after [alert(duration=1.0, pattern="blink")] was
    called at time 0 on a new controller. *)
Definition blink_started : LEDController :=
  {| pin_level := false; _stop_alert := false; _alert_thread := Some 0%nat;
     threads := [{| duration := VFloat 1; pattern := "blink";
                    start_time := 0; at_pc := P_start; last_step := 0 |}];
     caller := C_idle; clock := 0;
     writes := [(None, 0%Q, false)] |}.


(** ** Further notions: the detector *)

(** A detector that saves snapshots. *)
Definition sim_saving_detector : @VehicleDetector SimCV :=
  sim_detector_with
    (<["min_contour_area" := VInt 2]>
    (<["detection_cooldown" := VFloat (2 # 1)]>
    (<["alert_duration" := VFloat (5 # 1)]>
    (<["save_detections" := VBool true]>
    (<["detections_dir" := VStr "detections"]> ∅))))).

(** A detector that saves snapshots into a directory whose parent does not
    exist. *)
Definition sim_nested_dir_detector : @VehicleDetector SimCV :=
  sim_detector_with
    (<["min_contour_area" := VInt 2]>
    (<["detection_cooldown" := VFloat (2 # 1)]>
    (<["alert_duration" := VFloat (5 # 1)]>
    (<["save_detections" := VBool true]>
    (<["detections_dir" := VStr "nope/child"]> ∅))))).

(** A configuration without [alert_duration]. *)
Definition sim_no_duration_detector : @VehicleDetector SimCV :=
  sim_detector_with
    (<["min_contour_area" := VInt 2]>
    (<["detection_cooldown" := VFloat (2 # 1)]> ∅)).

(** The calls of [alert] in a run. *)
Definition alert_calls (run : list (Q * event)) : nat :=
  length (List.filter (fun te : Q * event =>
                         match snd te with
                         | Call_alert _ _ => true
                         | _ => false
                         end) run).

(** Whether the caller is inside [alert]. *)
Definition in_alert (k : caller_pc) : nat :=
  match k with
  | C_alert_alive _ _ | C_alert_join _ _ _
  | C_alert_clear _ _ | C_alert_start _ _ => 1
  | _ => 0
  end.

(** ** [src/camera.py] *)

(** The camera objects [create_camera] builds, with the arguments given to
    their constructors. *)
Inductive camera_obj : Type :=
| PiCamera (width height fps : pyval)
| USBCamera (index width height fps : pyval).

(** [d.get(key, default)] *)
Definition dict_get_default (d : gmap string pyval) (key : string)
    (default : pyval) : pyval :=
  match d !! key with
  | Some v => v
  | None => default
  end.

(** [v == s] for a string literal [s] *)
Definition py_eq_str (v : pyval) (s : string) : bool :=
  match v with
  | VStr s' => String.eqb s' s
  | _ => false
  end.

(** [create_camera]; [PICAMERA2_AVAILABLE] is whether the import of
    [picamera2] succeeded.  The log records written and the value returned. *)
Definition create_camera (PICAMERA2_AVAILABLE : bool)
    (config : gmap string pyval) : list log_record * result camera_obj :=
  let camera_type := dict_get config "camera_type" in
  let '(records, camera_type) :=
    match camera_type with
    | VNone =>
        let detected := if PICAMERA2_AVAILABLE then "pi" else "usb" in
        ([(INFO, "Auto-detected camera type: " ++ detected)], VStr detected)
    | _ => ([], camera_type)
    end in
  let width := dict_get_default config "frame_width" (VInt 640) in
  let height := dict_get_default config "frame_height" (VInt 480) in
  let fps := dict_get_default config "fps" (VInt 30) in
  if py_eq_str camera_type "pi" then
    if negb PICAMERA2_AVAILABLE then
      (records,
       Raise (RuntimeError
                "picamera2 not installed. Run: sudo apt install python3-picamera2"))
    else (records, Return (PiCamera width height fps))
  else
    (records,
     Return (USBCamera (dict_get_default config "camera_index" (VInt 0))
               width height fps)).

(** * Properties *)

(** ** Arithmetic and evaluation checks *)

Lemma Qltb_lt a b : Qltb a b = true <-> (a < b)%Q.
Proof. unfold Qltb, Qlt. apply Z.ltb_lt. Qed.

Lemma Qltb_ge a b : Qltb a b = false <-> (b <= a)%Q.
Proof. unfold Qltb, Qle. rewrite Z.ltb_ge. reflexivity. Qed.

Example default_led_pin : getitem _default_config "led_pin" = Return (VInt 17).
Proof. vm_compute. reflexivity. Qed.

Example slice_neg : py_slice [1; 2; 3; 4; 5] (-3) 4 = [3; 4].
Proof. reflexivity. Qed.

Example close_fills_hole :
  morphologyEx [[255; 255; 255]; [255; 0; 255]; [255; 255; 255]]
    MORPH_CLOSE MORPH_ELLIPSE_5x5
  = [[255; 255; 255]; [255; 255; 255]; [255; 255; 255]].
Proof. reflexivity. Qed.

Example solid_run :
  option_map (fun c => (pin_level c, alive_threads c, writes c))
    (led_exec (led_init 0)
       (alert_call 0 (VFloat (15 # 100)) "solid" ++
        [(0, Thread_step 0); (0, Thread_step 0);
         (0, Thread_step 0); (0, Thread_step 0);
         (1 # 10, Thread_step 0);
         (1 # 10, Thread_step 0); (1 # 10, Thread_step 0);
         (2 # 10, Thread_step 0);
         (2 # 10, Thread_step 0); (2 # 10, Thread_step 0)]%Q))
  = Some (false, [], [(None, 0, false); (Some 0%nat, 0, true);
                      (Some 0%nat, 2 # 10, false)]%Q).
Proof. vm_compute. reflexivity. Qed.

Example sim_init : __init__ (cv := SimCV) Absent = Return sim_detector.
Proof. vm_compute. reflexivity. Qed.

Example sim_stripe :
  fst (detect_motion (sim_detector_with (<["min_contour_area" := VInt 2]> ∅))
         stripe_frame)
  = Return (true, [(0, 3); (1, 3); (2, 3)]).
Proof. vm_compute. reflexivity. Qed.

(** ** The detection gate: [handle_detection] *)

Section GateFacts.
Context {cv : CV2} {fs : FileSystem}.

Lemma save_detection_frame (self : VehicleDetector) frame contours stamp :
  let out := snd (_save_detection self frame contours stamp) in
  config out = config self /\
  led out = led self /\
  last_detection_time out = last_detection_time self /\
  detection_log out = detection_log self.
Proof.
  unfold _save_detection.
  destruct (getitem (config self) "detections_dir") as [[| | | |dir| |]|e];
    simpl; auto.
  destruct (mkdir_exist_ok _ _); simpl; auto.
  destruct frame; simpl; auto.
  destruct (imwrite _ _ _ _ _) as [[|]|e]; simpl; auto.
Qed.

(** Inside the cooldown window the call returns at once. *)
Lemma handle_detection_rejected (self : VehicleDetector) now stamp frame contours v cd :
  config self !! "detection_cooldown" = Some v ->
  as_number v = Some cd ->
  (now - last_detection_time self < cd)%Q ->
  handle_detection self now stamp frame contours = (Return tt, self).
Proof.
  intros Hv Hcd Hlt. unfold handle_detection, getitem, py_lt.
  rewrite Hv, Hcd. apply Qltb_lt in Hlt. rewrite Hlt. reflexivity.
Qed.

(** Outside it the three effects of an accepted detection take place. *)
Lemma handle_detection_accepted (self : VehicleDetector) now stamp frame contours v cd d :
  config self !! "detection_cooldown" = Some v ->
  as_number v = Some cd ->
  config self !! "alert_duration" = Some d ->
  (cd <= now - last_detection_time self)%Q ->
  let out := snd (handle_detection self now stamp frame contours) in
  last_detection_time out = now /\
  led out = (led self ++ [LedAlert d "solid"])%list /\
  detection_log out =
    (detection_log self ++
      [{| timestamp := stamp; contour_count := length contours |}])%list.
Proof.
  intros Hv Hcd Hd Hle. unfold handle_detection, getitem, py_lt.
  rewrite Hv, Hcd. apply Qltb_ge in Hle. rewrite Hle. simpl.
  rewrite Hd.
  match goal with
  | |- context [if ?b then _save_detection ?s ?f ?c ?t else _] =>
      destruct b;
      [ destruct (save_detection_frame s f c t) as (_ & Hl & Ht & Hg);
        rewrite Hl, Ht, Hg
      | ]
  end; simpl; auto.
Qed.

Lemma handle_detection_config (self : VehicleDetector) now stamp frame contours :
  config (snd (handle_detection self now stamp frame contours)) = config self.
Proof.
  unfold handle_detection.
  destruct (getitem (config self) "detection_cooldown") as [v|e]; [|reflexivity].
  destruct (py_lt _ v) as [[|]|e]; try reflexivity.
  cbn [config set_last_detection_time logger].
  destruct (getitem (config self) "alert_duration") as [d|e]; [|reflexivity].
  match goal with
  | |- context [if ?b then _save_detection ?s ?f ?c ?t else _] =>
      destruct b;
      [ destruct (save_detection_frame s f c t) as (Hc & _); rewrite Hc | ]
  end; reflexivity.
Qed.

(** What a call may do to the log and to the time of the last accepted
    detection: nothing, or move the time to [now] once the cooldown has
    passed; the log grows only in the second case. *)
Lemma handle_detection_cases (self : VehicleDetector) now stamp frame contours v cd :
  config self !! "detection_cooldown" = Some v ->
  as_number v = Some cd ->
  let out := snd (handle_detection self now stamp frame contours) in
  (last_detection_time out = last_detection_time self /\
   detection_log out = detection_log self)
  \/
  ((cd <= now - last_detection_time self)%Q /\
   last_detection_time out = now).
Proof.
  intros Hv Hcd. unfold handle_detection, getitem, py_lt.
  rewrite Hv, Hcd.
  destruct (Qltb (now - last_detection_time self) cd) eqn:Hb; simpl.
  { left. auto. }
  right. apply Qltb_ge in Hb. split; [exact Hb|].
  destruct (config self !! "alert_duration") as [d|]; [|reflexivity].
  match goal with
  | |- context [if ?b then _save_detection ?s ?f ?c ?t else _] =>
      destruct b;
      [ destruct (save_detection_frame s f c t) as (_ & _ & Ht & _);
        rewrite Ht
      | ]
  end; reflexivity.
Qed.

End GateFacts.

(** ** What [detect_motion] and one loop iteration leave alone *)

Section LoopFacts.
Context {cv : CV2} {fs : FileSystem}.

Lemma detect_motion_frame (self : VehicleDetector) frame :
  let out := snd (detect_motion self frame) in
  config out = config self /\
  led out = led self /\
  last_detection_time out = last_detection_time self /\
  detection_log out = detection_log self /\
  saved out = saved self /\
  logged out = logged self.
Proof.
  unfold detect_motion.
  destruct (if truthy _ then _ else _) as [f|e]; [|simpl; tauto].
  destruct (match f with FNone => _ | FArray a => _ end) as [g|e];
    [|simpl; tauto].
  destruct (bg_apply _ _) as [bg mask].
  destruct (significant _ _) as [sig|e]; simpl; tauto.
Qed.

Lemma run_step_config (self : VehicleDetector) t :
  config (snd (run_step self t)) = config self.
Proof.
  unfold run_step. destruct (tick_ret t); simpl; [|reflexivity].
  pose proof (detect_motion_frame self (tick_frame t)) as (Hc & _).
  destruct (detect_motion self (tick_frame t)) as [[[d cs]|e] s]; simpl in *;
    [|exact Hc].
  destruct d; [|exact Hc].
  rewrite handle_detection_config. exact Hc.
Qed.

Lemma run_step_cases (self : VehicleDetector) t v cd :
  config self !! "detection_cooldown" = Some v ->
  as_number v = Some cd ->
  let out := snd (run_step self t) in
  (last_detection_time out = last_detection_time self /\
   detection_log out = detection_log self)
  \/
  ((cd <= tick_time t - last_detection_time self)%Q /\
   last_detection_time out = tick_time t).
Proof.
  intros Hv Hcd. unfold run_step.
  destruct (tick_ret t); simpl; [|left; auto].
  pose proof (detect_motion_frame self (tick_frame t)) as (Hc & _ & Ht & Hl & _).
  destruct (detect_motion self (tick_frame t)) as [[[d cs]|e] s]; simpl in *;
    [|left; auto].
  destruct d; [|left; auto].
  rewrite <- Hc in Hv.
  destruct (handle_detection_cases s (tick_time t) (tick_stamp t)
              (tick_frame t) cs v cd Hv Hcd) as [[H1 H2]|[H1 H2]].
  - left. rewrite H1, H2. auto.
  - right. rewrite Ht in H1. auto.
Qed.

Lemma accepts_inv (self : VehicleDetector) t v cd :
  config self !! "detection_cooldown" = Some v ->
  as_number v = Some cd ->
  accepts self t = true ->
  (cd <= tick_time t - last_detection_time self)%Q /\
  last_detection_time (snd (run_step self t)) = tick_time t.
Proof.
  intros Hv Hcd Hacc. unfold accepts in Hacc.
  destruct (run_step_cases self t v cd Hv Hcd) as [[_ Hl]|H]; [|exact H].
  rewrite Hl in Hacc. apply Nat.ltb_lt in Hacc. lia.
Qed.

Lemma run_loop_monotone (ticks : list tick) :
  forall (self out : VehicleDetector) r v cd,
    config self !! "detection_cooldown" = Some v ->
    as_number v = Some cd ->
    (0 <= cd)%Q ->
    run_loop self ticks = (r, out) ->
    config out = config self /\
    (last_detection_time self <= last_detection_time out)%Q.
Proof.
  induction ticks as [|t rest IH]; intros self out r v cd Hv Hcd Hpos Hrun;
    simpl in Hrun.
  - inversion Hrun; subst. split; [reflexivity|apply Qle_refl].
  - pose proof (run_step_config self t) as Hc.
    pose proof (run_step_cases self t v cd Hv Hcd) as Hcases.
    destruct (run_step self t) as [[u|e] s]; simpl in *.
    + rewrite <- Hc in Hv.
      destruct (IH s out r v cd Hv Hcd Hpos Hrun) as [Hc' Hle].
      split; [congruence|].
      destruct Hcases as [[H1 _]|[H1 H2]].
      * rewrite <- H1. exact Hle.
      * rewrite H2 in Hle. lra.
    + inversion Hrun; subst. split; [exact Hc|].
      destruct Hcases as [[H1 _]|[H1 H2]].
      * rewrite H1. apply Qle_refl.
      * rewrite H2. lra.
Qed.

Lemma run_loop_config (ticks : list tick) :
  forall (self out : VehicleDetector) r,
    run_loop self ticks = (r, out) -> config out = config self.
Proof.
  induction ticks as [|t rest IH]; intros self out r Hrun; simpl in Hrun.
  - congruence.
  - pose proof (run_step_config self t) as Hc.
    destruct (run_step self t) as [[u|e] s]; simpl in Hc.
    + rewrite (IH s out r Hrun). exact Hc.
    + congruence.
Qed.

End LoopFacts.

(** ** The documented defaults *)

Lemma default_config_values :
  _default_config !! "camera_index" = Some (VInt 0) /\
  _default_config !! "frame_width" = Some (VInt 640) /\
  _default_config !! "frame_height" = Some (VInt 480) /\
  _default_config !! "fps" = Some (VInt 30) /\
  _default_config !! "led_pin" = Some (VInt 17) /\
  _default_config !! "min_contour_area" = Some (VInt 5000) /\
  _default_config !! "detection_cooldown" = Some (VFloat (2 # 1)) /\
  _default_config !! "alert_duration" = Some (VFloat (5 # 1)) /\
  _default_config !! "bg_history" = Some (VInt 500) /\
  _default_config !! "var_threshold" = Some (VInt 50) /\
  _default_config !! "roi" = Some VNone /\
  _default_config !! "save_detections" = Some (VBool false) /\
  _default_config !! "detections_dir" = Some (VStr "detections").
Proof. vm_compute. repeat split. Qed.

Section InitFacts.
Context {cv : CV2} {fs : FileSystem}.

(** Construction without a configuration file. *)
Lemma init_absent (d0 : VehicleDetector) :
  __init__ Absent = Return d0 ->
  exists bg,
    createBackgroundSubtractorMOG2 (VInt 500) (VInt 50) = Return bg /\
    d0 = {| config := _default_config;
            led := [LedInit (VInt 17)];
            camera := CamNone;
            bg_subtractor := bg;
            last_detection_time := 0;
            detection_log := [];
            saved := [];
            logged := [(WARNING, "Config not found, using defaults")] |}.
Proof.
  destruct default_config_values
    as (_ & _ & _ & _ & Hpin & _ & _ & _ & Hh & Hv & _).
  unfold __init__, _load_config, doc_getitem, getitem.
  cbv beta iota delta [rbind].
  rewrite Hpin, Hh, Hv.
  destruct (createBackgroundSubtractorMOG2 (VInt 500) (VInt 50)) as [bg|e];
    intros H; [|discriminate].
  exists bg. split; [reflexivity|]. congruence.
Qed.

End InitFacts.

(** ** Claims about the detection gate *)

(** C1. A call to [handle_detection] at clock reading [now] is accepted,
    that is: stores [now] as the time of the last detection, triggers the
    LED alert and appends an entry to the detection log, if and only if
    [now - last_detection_time >= detection_cooldown].  Consequently, in
    every run of the detection loop two accepted detections are at least
    [detection_cooldown] apart (for a non-negative cooldown, or a clock
    that does not go backwards). *)
Theorem handle_detection_cooldown_gate {cv : CV2} {fs : FileSystem} (self : VehicleDetector) v cd d :
  config self !! "detection_cooldown" = Some v ->
  as_number v = Some cd ->
  config self !! "alert_duration" = Some d ->
  (forall now stamp frame contours,
      let out := snd (handle_detection self now stamp frame contours) in
      (last_detection_time out = now /\
       led out = (led self ++ [LedAlert d "solid"])%list /\
       detection_log out =
         (detection_log self ++
            [{| timestamp := stamp; contour_count := length contours |}])%list)
      <-> (cd <= now - last_detection_time self)%Q)
  /\
  (forall before a between b s1 s2 s3,
      (0 <= cd)%Q \/ (tick_time a <= tick_time b)%Q ->
      run_loop self before = (Return tt, s1) ->
      accepts s1 a = true ->
      run_step s1 a = (Return tt, s2) ->
      run_loop s2 between = (Return tt, s3) ->
      accepts s3 b = true ->
      (cd <= tick_time b - tick_time a)%Q).
Proof.
  intros Hv Hcd Hd. split.
  - intros now stamp frame contours out. split.
    + intros (_ & Hled & _).
      destruct (Qlt_le_dec (now - last_detection_time self) cd) as [Hlt|Hle];
        [|exact Hle].
      exfalso. subst out.
      rewrite (handle_detection_rejected self now stamp frame contours v cd
                 Hv Hcd Hlt) in Hled.
      simpl in Hled. apply (f_equal (@length led_call)) in Hled.
      rewrite length_app in Hled. simpl in Hled. lia.
    + intros Hle.
      exact (handle_detection_accepted self now stamp frame contours v cd d
               Hv Hcd Hd Hle).
  - intros before a between b s1 s2 s3 Hclock Hrun1 Hacc_a Hstep Hrun2 Hacc_b.
    pose proof (run_loop_config before self s1 _ Hrun1) as Hc1.
    pose proof (run_step_config s1 a) as Hc2.
    rewrite Hstep in Hc2. simpl in Hc2.
    pose proof (run_loop_config between s2 s3 _ Hrun2) as Hc3.
    assert (Hv1 : config s1 !! "detection_cooldown" = Some v) by congruence.
    assert (Hv2 : config s2 !! "detection_cooldown" = Some v) by congruence.
    assert (Hv3 : config s3 !! "detection_cooldown" = Some v) by congruence.
    destruct (accepts_inv s1 a v cd Hv1 Hcd Hacc_a) as [_ Hta].
    rewrite Hstep in Hta. simpl in Hta.
    destruct (accepts_inv s3 b v cd Hv3 Hcd Hacc_b) as [Hb _].
    destruct (Qlt_le_dec cd 0) as [Hneg|Hpos].
    + destruct Hclock as [Hpos|Hmono]; lra.
    + destruct (run_loop_monotone between s2 s3 (Return tt) v cd
                  Hv2 Hcd Hpos Hrun2) as [_ Hle].
      rewrite Hta in Hle. lra.
Qed.

Lemma handle_detection_cooldown_gate_witness :
  last_detection_time
    (snd (handle_detection (fs := SimFS) sim_gate_detector (21 # 10) "2024-05-01T10:00:00"
            stripe_frame [(1, 3)]))
  = (21 # 10)%Q /\
  (2 # 1 <= tick_time (stripe_tick (6 # 1)) - tick_time (stripe_tick (3 # 1)))%Q.
Proof.
  destruct (handle_detection_cooldown_gate (cv := SimCV) (fs := SimFS) sim_gate_detector
              (VFloat (2 # 1)) (2 # 1) (VFloat (5 # 1))
              eq_refl eq_refl eq_refl) as [Hgate Hrun].
  split.
  - apply (Hgate (21 # 10)%Q "2024-05-01T10:00:00" stripe_frame [(1, 3)]).
    vm_compute. discriminate.
  - apply (Hrun [] (stripe_tick (3 # 1)) [stripe_tick (4 # 1)]
             (stripe_tick (6 # 1)) sim_gate_detector
             (snd (run_step (fs := SimFS) sim_gate_detector (stripe_tick (3 # 1))))
             (snd (run_loop (fs := SimFS)
                     (snd (run_step (fs := SimFS) sim_gate_detector (stripe_tick (3 # 1))))
                     [stripe_tick (4 # 1)]))).
    + left. vm_compute. discriminate.
    + reflexivity.
    + vm_compute. reflexivity.
    + vm_compute. reflexivity.
    + vm_compute. reflexivity.
    + vm_compute. reflexivity.
Defined.

(** C9. Inside the cooldown window
    ([now - last_detection_time < detection_cooldown]) [handle_detection]
    returns without any effect: the detector is exactly as before, so the
    time of the last detection is unchanged, no alert is triggered, nothing
    is appended to the detection log and no snapshot is saved. *)
Theorem handle_detection_within_cooldown {cv : CV2} {fs : FileSystem}
    (self : VehicleDetector) now stamp frame contours v cd :
  config self !! "detection_cooldown" = Some v ->
  as_number v = Some cd ->
  (now - last_detection_time self < cd)%Q ->
  handle_detection self now stamp frame contours = (Return tt, self) /\
  let out := snd (handle_detection self now stamp frame contours) in
  last_detection_time out = last_detection_time self /\
  led out = led self /\
  detection_log out = detection_log self /\
  saved out = saved self.
Proof.
  intros Hv Hcd Hlt.
  rewrite (handle_detection_rejected self now stamp frame contours v cd
             Hv Hcd Hlt).
  simpl. auto.
Qed.

Lemma handle_detection_within_cooldown_witness :
  handle_detection (fs := SimFS) sim_detector (1 # 1) "2024-05-01T10:00:00"
    stripe_frame [(1, 3)]
  = (Return tt, sim_detector).
Proof.
  apply (handle_detection_within_cooldown (cv := SimCV) (fs := SimFS) sim_detector
           (1 # 1) "2024-05-01T10:00:00" stripe_frame [(1, 3)]
           (VFloat (2 # 1)) (2 # 1) eq_refl eq_refl).
  vm_compute. reflexivity.
Defined.

(** C2, as stated, fails: a fresh detector starts with
    [last_detection_time = 0], so of the detections at clock readings 0.0,
    1.0 and 2.1 only the last is accepted. *)
Lemma scenario_from_clock_zero :
  __init__ (cv := SimCV) Absent = Return sim_detector /\
  fst (submit_all (fs := SimFS) sim_detector [0; 1; 21 # 10]%Q stripe_frame [(1, 3)])
  = [false; false; true].
Proof. vm_compute. split; reflexivity. Qed.

(** C2, amended. A freshly constructed detector with the default cooldown of
    2.0 s, given detections at clock readings [T], [T + 1.0] and [T + 2.1],
    accepts the first and the third and rejects the second whenever
    [T - 0 >= 2.0], the initial [last_detection_time] being 0. *)
Theorem fresh_detector_scenario {cv : CV2} {fs : FileSystem} (d0 : VehicleDetector) (T : Q)
    frame contours :
  __init__ Absent = Return d0 ->
  (2 <= T)%Q ->
  fst (submit_all d0 [T; T + 1; T + (21 # 10)]%Q frame contours)
  = [true; false; true].
Proof.
  intros Hinit HT.
  destruct (init_absent d0 Hinit) as (bg & _ & ->).
  destruct default_config_values
    as (_ & _ & _ & _ & _ & _ & Hcd & Hd & _).
  set (s0 := {| config := _default_config |}).
  assert (Hcfg : forall s : VehicleDetector, config s = _default_config ->
            config s !! "detection_cooldown" = Some (VFloat (2 # 1)) /\
            config s !! "alert_duration" = Some (VFloat (5 # 1))).
  { intros s ->. auto. }
  cbn [submit_all].
  (* first detection *)
  destruct (Hcfg s0 eq_refl) as [Hc0 Hd0].
  pose proof (handle_detection_accepted s0 T "" frame contours _ _ _
                Hc0 eq_refl Hd0) as H1.
  pose proof (handle_detection_config s0 T "" frame contours) as Hk1.
  set (s1 := snd (handle_detection s0 T "" frame contours)) in *.
  destruct H1 as (Ht1 & _ & Hl1). { simpl. lra. }
  (* second detection *)
  destruct (Hcfg s1 Hk1) as [Hc1 Hd1].
  assert (H2 : handle_detection s1 (T + 1) "" frame contours = (Return tt, s1)).
  { apply (handle_detection_rejected s1 _ _ _ _ _ _ Hc1 eq_refl).
    rewrite Ht1. lra. }
  rewrite H2. cbn [snd].
  (* third detection *)
  pose proof (handle_detection_accepted s1 (T + (21 # 10)) "" frame contours
                _ _ _ Hc1 eq_refl Hd1) as H3.
  set (s3 := snd (handle_detection s1 (T + (21 # 10)) "" frame contours)) in *.
  destruct H3 as (_ & _ & Hl3). { rewrite Ht1. lra. }
  cbn [fst]. rewrite Hl3, Hl1, !length_app. cbn [length].
  repeat match goal with
         | |- context [Nat.ltb ?a ?b] =>
             first [ replace (Nat.ltb a b) with true
                       by (symmetry; apply Nat.ltb_lt; lia)
                   | replace (Nat.ltb a b) with false
                       by (symmetry; apply Nat.ltb_ge; lia) ]
         end.
  reflexivity.
Qed.

Lemma fresh_detector_scenario_witness :
  fst (submit_all (fs := SimFS) sim_detector [2 # 1; (2 # 1) + 1; (2 # 1) + (21 # 10)]%Q
         stripe_frame [(1, 3)])
  = [true; false; true].
Proof.
  apply (fresh_detector_scenario (cv := SimCV) (fs := SimFS) sim_detector (2 # 1)
           stripe_frame [(1, 3)]).
  - vm_compute. reflexivity.
  - vm_compute. discriminate.
Defined.

(** ** The motion pipeline: [detect_motion] *)

Section PipelineFacts.
Context {cv : CV2} {fs : FileSystem}.

Lemma detect_motion_detect_in (self : VehicleDetector) frame :
  detect_motion self frame =
  match (if truthy (dict_get (config self) "roi")
         then apply_roi (dict_get (config self) "roi") frame
         else Return frame) with
  | Raise e => (Raise e, self)
  | Return f => detect_in self f
  end.
Proof.
  unfold detect_motion, detect_in, extract_contours, cleaned_mask.
  destruct (if truthy _ then _ else _) as [[|a]|e]; try reflexivity.
  destruct (cvtColor_BGR2GRAY a) as [g|e]; [|reflexivity].
  destruct (bg_apply _ _) as [bg mask]. reflexivity.
Qed.

Lemma detect_motion_regions (self : VehicleDetector) frame :
  detect_motion self frame =
  match regions self frame with
  | (Raise e, s) => (Raise e, s)
  | (Return contours, s) =>
      match significant (config self) contours with
      | Raise e => (Raise e, s)
      | Return sig => (Return (Nat.ltb 0 (length sig), sig), s)
      end
  end.
Proof.
  rewrite detect_motion_detect_in. unfold regions, detect_in.
  destruct (if truthy _ then _ else _) as [f|e]; [|reflexivity].
  assert (Hc : config (snd (extract_contours self f)) = config self).
  { unfold extract_contours. destruct f as [|a]; [reflexivity|].
    destruct (cvtColor_BGR2GRAY a); [|reflexivity].
    destruct (bg_apply _ _). reflexivity. }
  destruct (extract_contours self f) as [[cs|e] s]; simpl in Hc;
    [rewrite Hc|]; reflexivity.
Qed.

(** The list comprehension keeps exactly the contours whose area exceeds
    the minimum. *)
Lemma significant_spec cfg (contours sig : list contour) :
  significant cfg contours = Return sig ->
  forall c, In c sig <-> In c contours /\ exceeds cfg c.
Proof.
  revert sig. induction contours as [|c0 rest IH]; intros sig H c;
    simpl in H.
  - inversion H; subst. simpl. tauto.
  - unfold getitem in H.
    destruct (cfg !! "min_contour_area") as [v|] eqn:Hv; [|discriminate].
    simpl in H. unfold py_gt in H.
    destruct (as_number v) as [m|] eqn:Hm; [|discriminate].
    simpl in H.
    destruct (significant cfg rest) as [rest'|e]; [|discriminate].
    simpl in H. inversion H; subst; clear H.
    specialize (IH rest' eq_refl).
    destruct (Qltb m (contourArea c0)) eqn:Hb.
    + simpl. rewrite IH. split.
      * intros [->|[Hin Hex]]; [|tauto].
        split; [tauto|]. exists v, m. apply Qltb_lt in Hb. auto.
      * intros [[->|Hin] Hex]; tauto.
    + rewrite IH. simpl. split; [tauto|].
      intros [[->|Hin] Hex]; [|tauto].
      exfalso. destruct Hex as (v' & m' & Hv' & Hm' & Hlt).
      rewrite Hv in Hv'. inversion Hv'; subst v'.
      rewrite Hm in Hm'. inversion Hm'; subst m'.
      apply Qltb_ge in Hb. lra.
Qed.

Lemma significant_numeric cfg (contours : list contour) v m :
  cfg !! "min_contour_area" = Some v ->
  as_number v = Some m ->
  significant cfg contours =
  Return (List.filter (fun c => Qltb m (contourArea c)) contours).
Proof.
  intros Hv Hm. induction contours as [|c rest IH]; simpl; [reflexivity|].
  unfold getitem, py_gt. rewrite Hv. simpl. rewrite Hm. simpl.
  rewrite IH. simpl. destruct (Qltb m (contourArea c)); reflexivity.
Qed.

End PipelineFacts.

Section MinAreaFacts.
Context {cv : CV2} {fs : FileSystem}.

Lemma nonempty_iff_member {A} (l : list A) :
  Nat.ltb 0 (length l) = true <-> exists x, In x l.
Proof.
  destruct l as [|x l]; simpl.
  - split; [discriminate|]. intros [x []].
  - split; [|reflexivity]. intros _. exists x. auto.
Qed.

Lemma existsb_filter_length {A} (p : A -> bool) (l : list A) :
  Nat.ltb 0 (length (List.filter p l)) = existsb p l.
Proof.
  induction l as [|x l IH]; simpl; [reflexivity|].
  destruct (p x); simpl; [reflexivity|exact IH].
Qed.

(** A run of the loop over frames none of whose regions exceeds the minimum
    area never reaches [handle_detection]. *)
Lemma run_loop_quiet (ticks : list tick) :
  forall self : VehicleDetector,
    never_exceeds self ticks ->
    let out := snd (run_loop self ticks) in
    detection_log out = detection_log self /\
    led out = led self /\
    last_detection_time out = last_detection_time self /\
    saved out = saved self /\
    config out = config self.
Proof.
  induction ticks as [|t rest IH]; intros self Hq; simpl in *; [tauto|].
  unfold run_step. destruct (tick_ret t); simpl.
  - pose proof (detect_motion_frame self (tick_frame t)) as Hfr.
    rewrite detect_motion_regions in *.
    destruct (regions self (tick_frame t)) as [[cs|e] s]; simpl in *;
      [|tauto].
    destruct Hq as [Hno Hq].
    destruct (significant (config self) cs) as [sig|e] eqn:Hsig; simpl in *;
      [|tauto].
    assert (Hnil : sig = []).
    { destruct sig as [|c sig]; [reflexivity|]. exfalso.
      destruct (proj1 (significant_spec _ _ _ Hsig c)) as [Hin Hex];
        [left; reflexivity|].
      exact (Hno c Hin Hex). }
    subst sig. simpl.
    destruct Hfr as (Hc & Hl & Ht & Hg & Hs & _).
    specialize (IH s Hq). simpl in IH.
    destruct IH as (I1 & I2 & I3 & I4 & I5).
    repeat split; congruence.
  - specialize (IH _ Hq). simpl in IH. exact IH.
Qed.

End MinAreaFacts.

(** C5. [detect_motion] reports [detected = true] exactly when at least one
    of the regions extracted from the frame has an area strictly greater
    than [min_contour_area] (and with a numeric minimum it does return,
    with the regions filtered by that test); hence a run of the loop over
    frames in which no region ever exceeds the minimum emits no detection:
    the log, the LED calls, the time of the last detection and the saved
    snapshots are as before. *)
Theorem detect_motion_min_area {cv : CV2} {fs : FileSystem} (self : VehicleDetector) :
  (forall frame contours s,
      regions self frame = (Return contours, s) ->
      (forall d sig s',
          detect_motion self frame = (Return (d, sig), s') ->
          (d = true <-> exists c, In c contours /\ exceeds (config self) c))
      /\
      (forall v m,
          config self !! "min_contour_area" = Some v ->
          as_number v = Some m ->
          detect_motion self frame =
          (Return (existsb (fun c => Qltb m (contourArea c)) contours,
                   List.filter (fun c => Qltb m (contourArea c)) contours),
           s)))
  /\
  (forall ticks,
      never_exceeds self ticks ->
      let out := snd (run_loop self ticks) in
      detection_log out = detection_log self /\
      led out = led self /\
      last_detection_time out = last_detection_time self /\
      saved out = saved self).
Proof.
  split.
  - intros frame contours s Hreg. split.
    + intros d sig s' Hdet. rewrite detect_motion_regions, Hreg in Hdet.
      destruct (significant (config self) contours) as [sig0|e] eqn:Hsig;
        [|discriminate].
      inversion Hdet; subst; clear Hdet.
      rewrite nonempty_iff_member.
      split; intros [c Hc]; exists c;
        apply (significant_spec _ _ _ Hsig c); exact Hc.
    + intros v m Hv Hm. rewrite detect_motion_regions, Hreg.
      rewrite (significant_numeric _ _ v m Hv Hm).
      rewrite existsb_filter_length. reflexivity.
  - intros ticks Hq out. subst out.
    destruct (run_loop_quiet ticks self Hq) as (H1 & H2 & H3 & H4 & _).
    auto.
Qed.

Lemma sim_small_regions (c : Z * Z) :
  In c [(0, 3); (1, 3); (2, 3)] ->
  ~ exceeds (cv := SimCV) _default_config c.
Proof.
  intros Hin (v & m & Hv & Hm & Hlt).
  vm_compute in Hv. inversion Hv; subst v; clear Hv.
  simpl in Hm. inversion Hm; subst m; clear Hm.
  simpl in Hin.
  destruct Hin as [<-|[<-|[<-|[]]]]; vm_compute in Hlt; discriminate.
Qed.

Lemma detect_motion_min_area_witness :
  detection_log
    (snd (run_loop (fs := SimFS) sim_detector [stripe_tick (3 # 1); failed_tick]))
  = [].
Proof.
  destruct (detect_motion_min_area (cv := SimCV) (fs := SimFS) sim_detector) as [_ Hrun].
  apply (Hrun [stripe_tick (3 # 1); failed_tick]).
  split; [exact sim_small_regions|exact I].
Defined.

(** ** The region of interest *)

Lemma py_slice_lookup {A} (l : list A) (i n : Z) (k : nat) :
  0 <= i -> 0 <= n ->
  py_slice l i (i + n) !! k =
  if Z.of_nat k <? n then l !! (Z.to_nat i + k)%nat else None.
Proof.
  intros Hi Hn. unfold py_slice, slice_bound.
  destruct (Z.ltb_spec i 0) as [?|_]; [lia|].
  destruct (Z.ltb_spec (i + n) 0) as [?|_]; [lia|].
  destruct (Z.ltb_spec (Z.of_nat k) n) as [Hk|Hk].
  - destruct (Z.ltb_spec (Z.of_nat (Z.to_nat i + k)) (Z.of_nat (length l)))
      as [Hin|Hout].
    + rewrite lookup_take_lt by lia. rewrite lookup_drop.
      f_equal. lia.
    + rewrite lookup_take_ge by lia.
      symmetry. apply lookup_ge_None_2. lia.
  - apply lookup_take_ge. lia.
Qed.

Lemma lookup_map {A B} (f : A -> B) (l : list A) (i : nat) :
  map f l !! i = option_map f (l !! i).
Proof.
  revert i. induction l as [|x l IH]; intros [|i]; simpl; auto.
Qed.

(** With a rectangle given by non-negative numbers, the cropped frame is
    the [h] by [w] window of the frame whose top-left pixel is [(y, x)],
    cut at the frame's border. *)
Lemma pix_crop {A} (a : image A) (x y w h r c : Z) :
  0 <= x -> 0 <= y -> 0 <= w -> 0 <= h -> 0 <= r -> 0 <= c ->
  pix (crop a x y w h) r c =
  if (r <? h) && (c <? w) then pix a (y + r) (x + c) else None.
Proof.
  intros Hx Hy Hw Hh Hr Hc. unfold pix, crop.
  destruct (Z.ltb_spec r 0) as [?|_]; [lia|].
  destruct (Z.ltb_spec c 0) as [?|_]; [lia|].
  destruct (Z.ltb_spec (y + r) 0) as [?|_]; [lia|].
  destruct (Z.ltb_spec (x + c) 0) as [?|_]; [lia|].
  cbn [orb].
  rewrite lookup_map, py_slice_lookup by lia.
  rewrite !Z2Nat.id by lia.
  replace (Z.to_nat y + Z.to_nat r)%nat with (Z.to_nat (y + r)) by lia.
  destruct (Z.ltb_spec r h) as [Hrh|Hrh]; cbn [andb]; [|reflexivity].
  destruct (a !! Z.to_nat (y + r)) as [row|]; cbn [option_map];
    [|destruct (c <? w); reflexivity].
  rewrite py_slice_lookup by lia. rewrite Z2Nat.id by lia.
  replace (Z.to_nat x + Z.to_nat c)%nat with (Z.to_nat (x + c)) by lia.
  reflexivity.
Qed.

Example crop_window :
  crop [[1; 2; 3; 4]; [5; 6; 7; 8]; [9; 10; 11; 12]] 1 1 2 5
  = [[6; 7]; [10; 11]].
Proof. reflexivity. Qed.

Section RoiFacts.
Context {cv : CV2} {fs : FileSystem}.

Lemma apply_roi_inv roi frame f :
  apply_roi roi frame = Return f ->
  exists vx vy vw vh x y w h a,
    roi = VList [vx; vy; vw; vh] /\
    as_index vx = Some x /\ as_index vy = Some y /\
    as_index vw = Some w /\ as_index vh = Some h /\
    frame = FArray a /\ f = FArray (crop a x y w h).
Proof.
  unfold apply_roi, unpack4.
  destruct roi as [| | | |s|l|d]; try discriminate.
  - destruct s as [|c1 [|c2 [|c3 [|c4 [|c5 s]]]]]; discriminate.
  - destruct l as [|vx [|vy [|vw [|vh [|v5 l]]]]]; try discriminate.
    simpl.
    destruct (as_index vx) as [x|] eqn:Hx; [|discriminate].
    destruct (as_index vy) as [y|] eqn:Hy; [|discriminate].
    destruct (as_index vw) as [w|] eqn:Hw; [|discriminate].
    destruct (as_index vh) as [h|] eqn:Hh; [|discriminate].
    destruct frame as [|a]; [discriminate|].
    intros H. inversion H; subst.
    exists vx, vy, vw, vh, x, y, w, h, a. auto 10.
  - destruct d as [|[k1 v1] [|[k2 v2] [|[k3 v3] [|[k4 v4] [|[k5 v5] d]]]]];
      discriminate.
Qed.

End RoiFacts.

(** C10. When the configured [roi] is absent, [None] or an empty list, and
    more generally falsy, [detect_motion] processes the frame it was given,
    uncropped.  With [roi = [x, y, w, h]] it processes
    [frame[y:y+h, x:x+w]].  Nothing else makes it crop: with any other
    truthy [roi] it raises before touching the frame. *)
Theorem detect_motion_roi {cv : CV2} (self : VehicleDetector) (frame : frame_val) :
  let roi := dict_get (config self) "roi" in
  (config self !! "roi" = None \/
   config self !! "roi" = Some VNone \/
   config self !! "roi" = Some (VList []) ->
   truthy roi = false)
  /\
  (truthy roi = false -> detect_motion self frame = detect_in self frame)
  /\
  (forall vx vy vw vh x y w h a,
      roi = VList [vx; vy; vw; vh] ->
      as_index vx = Some x -> as_index vy = Some y ->
      as_index vw = Some w -> as_index vh = Some h ->
      frame = FArray a ->
      detect_motion self frame = detect_in self (FArray (crop a x y w h)))
  /\
  (truthy roi = true ->
   (exists e, detect_motion self frame = (Raise e, self)) \/
   (exists vx vy vw vh x y w h a,
       roi = VList [vx; vy; vw; vh] /\
       as_index vx = Some x /\ as_index vy = Some y /\
       as_index vw = Some w /\ as_index vh = Some h /\
       frame = FArray a /\
       detect_motion self frame = detect_in self (FArray (crop a x y w h)))).
Proof.
  intros roi. subst roi. repeat split.
  - unfold dict_get. intros [->|[->| ->]]; reflexivity.
  - intros Hf. rewrite detect_motion_detect_in, Hf. reflexivity.
  - intros vx vy vw vh x y w h a Hroi Hx Hy Hw Hh ->.
    rewrite detect_motion_detect_in, Hroi.
    cbn [truthy]. unfold apply_roi. cbn [unpack4 rbind].
    rewrite Hx, Hy, Hw, Hh. reflexivity.
  - intros Ht. rewrite detect_motion_detect_in, Ht.
    destruct (apply_roi (dict_get (config self) "roi") frame) as [f|e] eqn:Hap.
    + right.
      destruct (apply_roi_inv _ _ _ Hap)
        as (vx & vy & vw & vh & x & y & w & h & a & H1 & H2 & H3 & H4 & H5 & H6 & ->).
      exists vx, vy, vw, vh, x, y, w, h, a. auto 10.
    + left. exists e. reflexivity.
Qed.

Lemma detect_motion_roi_witness :
  fst (detect_motion
         (sim_detector_with
            (<["roi" := VList [VInt 0; VInt 1; VInt 3; VInt 1]]>
               (<["min_contour_area" := VInt 2]> ∅)))
         stripe_frame)
  = Return (true, [(0, 3)]).
Proof.
  destruct (detect_motion_roi (cv := SimCV)
              (sim_detector_with
                 (<["roi" := VList [VInt 0; VInt 1; VInt 3; VInt 1]]>
                    (<["min_contour_area" := VInt 2]> ∅)))
              stripe_frame) as (_ & _ & Hcrop & _).
  rewrite (Hcrop (VInt 0) (VInt 1) (VInt 3) (VInt 1) 0 1 3 1 _
             eq_refl eq_refl eq_refl eq_refl eq_refl eq_refl).
  vm_compute. reflexivity.
Defined.

(** ** Malformed frames *)

(** C3, as stated, fails: given [None] for a frame, [detect_motion] raises
    instead of returning [(False, [])]: the [cv2.error] of [cv2.cvtColor]
    without a region of interest, [TypeError] from the slice with one. *)
Lemma detect_motion_none_raises :
  detect_motion sim_detector FNone = (Raise Cv2Error, sim_detector) /\
  fst (detect_motion
         (sim_detector_with
            (<["roi" := VList [VInt 0; VInt 0; VInt 1; VInt 1]]> ∅))
         FNone)
  = Raise TypeError.
Proof. vm_compute. split; reflexivity. Qed.

(** C3, amended. [detect_motion] does not validate its frame.  Given [None]
    it raises and leaves the detector as it was, and so it does when
    [cv2.cvtColor] rejects the array (zero size, wrong number of channels);
    the exception ends the loop of [run] and escapes from [run].  Only a
    failed read ([ret] false) is absorbed: the
    loop logs an error and goes on without calling [detect_motion], which
    leaves the detection log, the LED and the background model alone. *)
Theorem detect_motion_unguarded {cv : CV2} {fs : FileSystem} (self : VehicleDetector) :
  (exists e, detect_motion self FNone = (Raise e, self))
  /\
  (forall a e,
      truthy (dict_get (config self) "roi") = false ->
      cvtColor_BGR2GRAY a = Raise e ->
      detect_motion self (FArray a) = (Raise e, self))
  /\
  (forall t rest,
      tick_ret t = true -> tick_frame t = FNone ->
      (exists e, run_loop self (t :: rest) = (Raise e, self)) /\
      (forall opened, exists e, fst (run self opened (t :: rest)) = Raise e))
  /\
  (forall t rest,
      tick_ret t = false ->
      run_step self t = (Return tt, logger self ERROR "Failed to read frame") /\
      run_loop self (t :: rest) =
        run_loop (logger self ERROR "Failed to read frame") rest).
Proof.
  assert (Hnone : exists e, detect_motion self FNone = (Raise e, self)).
  { rewrite detect_motion_detect_in.
    destruct (truthy (dict_get (config self) "roi")).
    - destruct (apply_roi (dict_get (config self) "roi") FNone) as [f|e] eqn:Hap.
      + destruct (apply_roi_inv _ _ _ Hap)
          as (? & ? & ? & ? & ? & ? & ? & ? & ? & _ & _ & _ & _ & _ & Hf & _).
        discriminate.
      + exists e. reflexivity.
    - exists Cv2Error. reflexivity. }
  assert (Hloop : forall (s : VehicleDetector) t rest,
             tick_ret t = true -> tick_frame t = FNone ->
             (exists e, detect_motion s FNone = (Raise e, s)) ->
             exists e, run_loop s (t :: rest) = (Raise e, s)).
  { intros s t rest Hret Hfr [e He]. exists e.
    simpl. unfold run_step. rewrite Hret, Hfr, He. reflexivity. }
  split; [exact Hnone|]. split; [|split].
  - intros a e Hroi Hcv. rewrite detect_motion_detect_in, Hroi.
    unfold detect_in, extract_contours. rewrite Hcv. reflexivity.
  - intros t rest Hret Hfr. split; [apply Hloop; auto|].
    intros opened. unfold run.
    destruct (start_camera _ opened) as [[u|e] s] eqn:Hstart.
    + assert (Hs : exists e, detect_motion s FNone = (Raise e, s)).
      { rewrite detect_motion_detect_in.
        destruct (truthy (dict_get (config s) "roi")).
        - destruct (apply_roi (dict_get (config s) "roi") FNone) as [f|e] eqn:Hap.
          + destruct (apply_roi_inv _ _ _ Hap)
              as (? & ? & ? & ? & ? & ? & ? & ? & ? & _ & _ & _ & _ & _ & Hf & _).
            discriminate.
          + exists e. reflexivity.
        - exists Cv2Error. reflexivity. }
      destruct (Hloop s t rest Hret Hfr Hs) as [e He].
      rewrite He. exists e. reflexivity.
    + exists e. reflexivity.
  - intros t rest Hret. simpl. unfold run_step. rewrite Hret. simpl. auto.
Qed.

Lemma detect_motion_unguarded_witness :
  run_loop (fs := SimFS) sim_detector [failed_tick] =
  (Return tt, logger sim_detector ERROR "Failed to read frame").
Proof.
  destruct (detect_motion_unguarded (cv := SimCV) (fs := SimFS) sim_detector)
    as (_ & _ & _ & Hskip).
  destruct (Hskip failed_tick [] eq_refl) as [_ Hrun].
  rewrite Hrun. reflexivity.
Defined.

(** ** Loading the configuration *)

(** C4, as stated, fails: a file that does not parse makes loading (and the
    construction of the detector) raise, and a file that leaves options out
    is used as it is, so that reading a missing option raises [KeyError]
    instead of falling back to the default. *)
Lemma load_config_aborts :
  snd (_load_config (Present (Raise JSONDecodeError))) = Raise JSONDecodeError /\
  __init__ (cv := SimCV) (Present (Raise JSONDecodeError)) = Raise JSONDecodeError /\
  __init__ (cv := SimCV) (Present (Return (JObject ∅))) = Raise (KeyError "led_pin") /\
  (exists d,
      __init__ (cv := SimCV)
        (Present (Return (JObject
           (<["led_pin" := VInt 17]>
           (<["bg_history" := VInt 500]>
           (<["var_threshold" := VInt 50]> ∅)))))) = Return d /\
      fst (detect_motion d stripe_frame) = Raise (KeyError "min_contour_area")).
Proof.
  split; [vm_compute; reflexivity|].
  split; [vm_compute; reflexivity|].
  split; [vm_compute; reflexivity|].
  exists (sim_detector_with
            (<["led_pin" := VInt 17]>
            (<["bg_history" := VInt 500]>
            (<["var_threshold" := VInt 50]> ∅)))).
  split; vm_compute; reflexivity.
Qed.

(** C4, amended. When the configuration file is missing, loading returns the
    documented defaults and logs a warning, and the detector is built from
    them.  A file that is present is returned as [json.load] produced it:
    no defaults are merged.  Of the options left out of it, [roi] and
    [save_detections], which are read with [.get], behave as their defaults
    (no region of interest, no snapshots). *)
Theorem load_config_defaults {cv : CV2} :
  _load_config Absent =
    ([(WARNING, "Config not found, using defaults")],
     Return (JObject _default_config))
  /\
  (_default_config !! "frame_width" = Some (VInt 640) /\
   _default_config !! "frame_height" = Some (VInt 480) /\
   _default_config !! "fps" = Some (VInt 30) /\
   _default_config !! "led_pin" = Some (VInt 17) /\
   _default_config !! "min_contour_area" = Some (VInt 5000) /\
   _default_config !! "detection_cooldown" = Some (VFloat (2 # 1)) /\
   _default_config !! "alert_duration" = Some (VFloat (5 # 1)) /\
   _default_config !! "bg_history" = Some (VInt 500) /\
   _default_config !! "var_threshold" = Some (VInt 50) /\
   _default_config !! "roi" = Some VNone /\
   _default_config !! "save_detections" = Some (VBool false))
  /\
  (forall bg,
      createBackgroundSubtractorMOG2 (VInt 500) (VInt 50) = Return bg ->
      exists d0 : VehicleDetector,
        __init__ Absent = Return d0 /\ config d0 = _default_config /\
        logged d0 = [(WARNING, "Config not found, using defaults")])
  /\
  (forall parsed, _load_config (Present parsed) = ([], parsed))
  /\
  (forall d : gmap string pyval,
      d !! "roi" = None ->
      dict_get d "roi" = dict_get _default_config "roi")
  /\
  (forall d : gmap string pyval,
      d !! "save_detections" = None ->
      truthy (dict_get d "save_detections") =
      truthy (dict_get _default_config "save_detections")).
Proof.
  destruct default_config_values
    as (H0 & H1 & H2 & H3 & H4 & H5 & H6 & H7 & H8 & H9 & H10 & H11 & H12).
  split; [reflexivity|]. split; [tauto|]. split; [|split; [|split]].
  - intros bg Hbg. unfold __init__, _load_config, doc_getitem, getitem.
    cbv beta iota delta [rbind]. rewrite H4, H8, H9, Hbg.
    eexists. split; [reflexivity|]. split; reflexivity.
  - reflexivity.
  - intros d Hd. unfold dict_get. rewrite Hd, H10. reflexivity.
  - intros d Hd. unfold dict_get. rewrite Hd, H11. reflexivity.
Qed.

Lemma load_config_defaults_witness :
  exists d0 : @VehicleDetector SimCV,
    __init__ Absent = Return d0 /\ config d0 = _default_config /\
    logged d0 = [(WARNING, "Config not found, using defaults")].
Proof.
  destruct (load_config_defaults (cv := SimCV)) as (_ & _ & Hinit & _).
  apply (Hinit 0%nat). reflexivity.
Defined.

(** ** Shadows *)

Lemma pix_threshold (m : gray) (t mx r c : Z) :
  pix (threshold m t mx) r c =
  option_map (fun v => if t <? v then mx else 0) (pix m r c).
Proof.
  unfold pix, threshold.
  destruct ((r <? 0) || (c <? 0)); [reflexivity|].
  rewrite lookup_map.
  destruct (m !! Z.to_nat r) as [row|]; simpl; [|reflexivity].
  apply lookup_map.
Qed.

Lemma threshold_same_strong (m1 m2 : gray) :
  same_strong m1 m2 -> threshold m1 250 255 = threshold m2 250 255.
Proof.
  unfold same_strong, threshold.
  induction 1 as [|r1 r2 m1 m2 Hrow _ IH]; simpl; [reflexivity|].
  f_equal; [|exact IH].
  induction Hrow as [|a b r1 r2 Hab _ IHr]; simpl; [reflexivity|].
  rewrite Hab, IHr. reflexivity.
Qed.

Lemma pix_blank (m : gray) r c v : blank m -> pix m r c = Some v -> v = 0.
Proof.
  unfold blank, pix. intros Hb.
  destruct ((r <? 0) || (c <? 0)); [discriminate|].
  destruct (m !! Z.to_nat r) as [row|] eqn:Hrow; [|discriminate].
  intros Hv.
  rewrite Forall_lookup in Hb. specialize (Hb _ _ Hrow).
  rewrite Forall_lookup in Hb. exact (Hb _ _ Hv).
Qed.

Lemma samples_blank (k : list (Z * Z)) (m : gray) r c :
  blank m -> Forall (fun v => v = 0) (samples k m r c).
Proof.
  intros Hb. apply Forall_forall. intros v Hv.
  unfold samples in Hv.
  apply list_elem_of_omap in Hv. destruct Hv as (d & _ & Hd).
  exact (pix_blank _ _ _ _ Hb Hd).
Qed.

Lemma fold_max_zero (l : list Z) :
  Forall (fun v => v = 0) l -> fold_right Z.max 0 l = 0.
Proof. induction 1 as [|x l -> _ IH]; simpl; [reflexivity|]. rewrite IH. reflexivity. Qed.

Lemma fold_min_zero (l : list Z) :
  Forall (fun v => v = 0) l -> l <> [] -> fold_right Z.min 255 l = 0.
Proof.
  induction 1 as [|x l -> Hl IH]; intros Hne; [congruence|]. simpl.
  destruct l as [|y l]; [reflexivity|].
  rewrite IH by discriminate. reflexivity.
Qed.

Lemma blank_imap (f : Z -> Z -> Z) (m : gray) :
  (forall r c row x,
      m !! r = Some row -> row !! c = Some x ->
      f (Z.of_nat r) (Z.of_nat c) = 0) ->
  blank (imap (fun r row => imap (fun c (_ : Z) => f (Z.of_nat r) (Z.of_nat c)) row) m).
Proof.
  intros Hf. unfold blank. apply Forall_lookup. intros r row' Hr.
  rewrite list_lookup_imap in Hr.
  destruct (m !! r) as [row|] eqn:Hrow; [|discriminate].
  simpl in Hr. inversion Hr; subst row'; clear Hr.
  apply Forall_lookup. intros c v Hc.
  rewrite list_lookup_imap in Hc.
  destruct (row !! c) as [x|] eqn:Hx; [|discriminate].
  simpl in Hc. inversion Hc; subst v. exact (Hf r c row x Hrow Hx).
Qed.

Lemma dilate_blank (k : list (Z * Z)) (m : gray) : blank m -> blank (dilate k m).
Proof.
  intros Hb. unfold dilate.
  apply (blank_imap (fun r c => fold_right Z.max 0 (samples k m r c))).
  intros. apply fold_max_zero, samples_blank, Hb.
Qed.

Lemma erode_blank (k : list (Z * Z)) (m : gray) :
  In (0, 0) k -> blank m -> blank (erode k m).
Proof.
  intros Hk Hb. unfold erode.
  apply (blank_imap (fun r c => fold_right Z.min 255 (samples k m r c))).
  intros r c row x Hrow Hx.
  apply fold_min_zero; [apply samples_blank, Hb|].
  assert (Hin : x ∈ samples k m (Z.of_nat r) (Z.of_nat c)).
  { unfold samples. apply list_elem_of_omap. exists (0, 0).
    split; [rewrite list_elem_of_In; exact Hk|].
    unfold pix. cbn [fst snd]. rewrite !Z.add_0_r.
    destruct (Z.ltb_spec (Z.of_nat r) 0) as [?|_]; [lia|].
    destruct (Z.ltb_spec (Z.of_nat c) 0) as [?|_]; [lia|].
    cbn [orb]. rewrite !Nat2Z.id, Hrow. exact Hx. }
  intros Hnil. rewrite Hnil in Hin. inversion Hin.
Qed.

Lemma threshold_blank (m : gray) :
  (forall r c v, pix m r c = Some v -> v <= 250) ->
  blank (threshold m 250 255).
Proof.
  intros Hm. unfold blank. apply Forall_lookup. intros r row' Hr.
  unfold threshold in Hr. rewrite lookup_map in Hr.
  destruct (m !! r) as [row|] eqn:Hrow; [|discriminate].
  simpl in Hr. inversion Hr; subst row'; clear Hr.
  apply Forall_lookup. intros c v Hc. rewrite lookup_map in Hc.
  destruct (row !! c) as [x|] eqn:Hx; [|discriminate].
  simpl in Hc. inversion Hc; subst v; clear Hc.
  assert (Hpix : pix m (Z.of_nat r) (Z.of_nat c) = Some x).
  { unfold pix.
    destruct (Z.ltb_spec (Z.of_nat r) 0) as [?|_]; [lia|].
    destruct (Z.ltb_spec (Z.of_nat c) 0) as [?|_]; [lia|].
    cbn [orb]. rewrite !Nat2Z.id, Hrow. exact Hx. }
  specialize (Hm _ _ _ Hpix).
  destruct (Z.ltb_spec 250 x); [lia|reflexivity].
Qed.

(** A mask that holds shadow and background only is blank once cleaned. *)
Lemma cleaned_mask_blank (m : gray) :
  (forall r c v, pix m r c = Some v -> v <= 250) ->
  blank (cleaned_mask m).
Proof.
  intros Hm. unfold cleaned_mask, morphologyEx.
  assert (Hk : In (0, 0) MORPH_ELLIPSE_5x5) by (simpl; tauto).
  apply dilate_blank, erode_blank; [exact Hk|].
  apply erode_blank; [exact Hk|].
  apply dilate_blank, threshold_blank, Hm.
Qed.

Lemma pix_Forall (P : Z -> Prop) (m : gray) r c v :
  Forall (Forall P) m -> pix m r c = Some v -> P v.
Proof.
  unfold pix. intros Hm.
  destruct ((r <? 0) || (c <? 0)); [discriminate|].
  destruct (m !! Z.to_nat r) as [row|] eqn:Hrow; [|discriminate].
  intros Hv.
  rewrite Forall_lookup in Hm. specialize (Hm _ _ Hrow).
  rewrite Forall_lookup in Hm. exact (Hm _ _ Hv).
Qed.

Lemma filter_nonzero_blank (row : list Z) :
  Forall (fun v => v = 0) row ->
  List.filter (fun v => negb (v =? 0)) row = [].
Proof. induction 1 as [|x l -> _ IH]; simpl; auto. Qed.

Lemma sim_rows_blank (m : gray) :
  forall f : nat -> list Z -> nat * list Z,
    (forall r row, snd (f r row) = row) ->
    blank m ->
    omap (fun rc : nat * list Z =>
            let n := length (List.filter (fun v => negb (v =? 0)) (snd rc)) in
            if (n =? 0)%nat then None else Some (Z.of_nat (fst rc), Z.of_nat n))
         (imap f m) = [].
Proof.
  induction m as [|row m IH]; intros f Hf Hb; [reflexivity|].
  inversion Hb as [|? ? Hrow Hrest]; subst.
  cbn [imap omap list_omap]. rewrite Hf, (filter_nonzero_blank row Hrow).
  cbn. apply IH; [|exact Hrest]. intros r row'. apply Hf.
Qed.

Lemma sim_findContours_blank (m : gray) :
  blank m -> findContours (CV2 := SimCV) m = [].
Proof.
  intros Hb. apply (sim_rows_blank m (fun r row => (r, row))); auto.
Qed.

(** C6. The binarisation [cv2.threshold(fg_mask, 250, 255, THRESH_BINARY)]
    maps every mask value up to 250, the grey of a shadow included, to 0
    and the values above to 255, before the morphology and the contour
    extraction; so the contours depend on the mask only through its strong
    foreground pixels, and a mask that holds nothing but shadow and
    background yields no region and [detected = False]. *)
Theorem shadows_dropped {cv : CV2} :
  (forall (mask : gray) r c v,
      pix mask r c = Some v ->
      pix (threshold mask 250 255) r c = Some (if 250 <? v then 255 else 0) /\
      (v <= 250 -> pix (threshold mask 250 255) r c = Some 0))
  /\
  (forall m1 m2 : gray, same_strong m1 m2 -> cleaned_mask m1 = cleaned_mask m2)
  /\
  (forall (self : VehicleDetector) frame a g bg mask,
      (if truthy (dict_get (config self) "roi")
       then apply_roi (dict_get (config self) "roi") frame
       else Return frame) = Return (FArray a) ->
      cvtColor_BGR2GRAY a = Return g ->
      bg_apply (bg_subtractor self) (GaussianBlur_21 g) = (bg, mask) ->
      regions self frame =
        (Return (findContours (cleaned_mask mask)), set_bg_subtractor self bg)
      /\
      ((forall r c v, pix mask r c = Some v -> v <= 250) ->
       (forall m, blank m -> findContours m = []) ->
       detect_motion self frame =
         (Return (false, []), set_bg_subtractor self bg))).
Proof.
  split; [|split].
  - intros mask r c v Hv. rewrite pix_threshold, Hv. simpl.
    split; [reflexivity|]. intros Hle.
    destruct (Z.ltb_spec 250 v); [lia|reflexivity].
  - intros m1 m2 H. unfold cleaned_mask.
    rewrite (threshold_same_strong m1 m2 H). reflexivity.
  - intros self frame a g bg mask Hroi Hcv Hbg.
    assert (Hreg : regions self frame =
              (Return (findContours (cleaned_mask mask)),
               set_bg_subtractor self bg)).
    { unfold regions. rewrite Hroi. unfold extract_contours.
      rewrite Hcv, Hbg. reflexivity. }
    split; [exact Hreg|].
    intros Hshadow Hfc.
    rewrite detect_motion_regions, Hreg.
    rewrite (Hfc _ (cleaned_mask_blank mask Hshadow)). reflexivity.
Qed.

Lemma shadows_dropped_witness :
  detect_motion sim_detector shadow_frame =
  (Return (false, []), set_bg_subtractor sim_detector 1%nat).
Proof.
  destruct (shadows_dropped (cv := SimCV)) as (_ & _ & Hdet).
  destruct (Hdet sim_detector shadow_frame
              [[[127; 127; 127]; [127; 127; 127]];
               [[127; 127; 127]; [0; 0; 0]]]
              [[127; 127]; [127; 0]] 1%nat [[127; 127]; [127; 0]]
              eq_refl eq_refl eq_refl) as [_ Hshadow].
  apply Hshadow.
  - intros r c v. apply (pix_Forall (fun v => v <= 250)).
    repeat constructor; lia.
  - exact sim_findContours_blank.
Defined.

(** ** The LED controller *)

Example preempt_run_result :
  option_map (fun c => (pin_level c, alive_threads c, writes c))
    (led_exec (led_init 0) preempt_run)
  = Some (false, [1%nat],
          [(None, 0, false); (Some 0%nat, 0, true);
           (Some 0%nat, 1 # 10, false)]%Q).
Proof. vm_compute. reflexivity. Qed.

Lemma led_inv_init t : led_inv (led_init t).
Proof.
  unfold led_inv, led_init; simpl. repeat split.
  - intros i th H. destruct i; discriminate.
  - discriminate.
Qed.

Lemma numeric_init t : numeric (led_init t).
Proof.
  split; [|exact I]. intros i th H. destruct i; discriminate.
Qed.

Lemma is_number_Some v q : as_number v = Some q -> is_number v = true.
Proof. unfold is_number. intros ->. reflexivity. Qed.

Lemma is_number_None v : as_number v = None -> is_number v = false.
Proof. unfold is_number. intros ->. reflexivity. Qed.


(** What one statement of a thread changes.  A thread that ends has
    switched the LED off, unless its duration is not a number. *)
Lemma thread_step_frame c i c' :
  thread_step c i = Some c' ->
  exists th th',
    threads c !! i = Some th /\ is_alive th = true /\
    threads c' = <[i := th']> (threads c) /\
    _alert_thread c' = _alert_thread c /\
    caller c' = caller c /\
    _stop_alert c' = _stop_alert c /\
    clock c' = clock c /\
    (is_number (duration th) = true ->
     is_alive th' = false -> pin_level c' = false) /\
    (pin_level c' = true -> pin_level c = true \/ is_alive th' = true) /\
    duration th' = duration th.
Proof.
  unfold thread_step.
  destruct (threads c !! i) as [th|] eqn:Hth; [|discriminate].
  cbv zeta. unfold py_lt, is_number.
  destruct (at_pc th) eqn:Hpc;
    try destruct (as_number (duration th)) eqn:Hnum;
    repeat match goal with
           | |- context [if ?b then _ else _] => destruct b eqn:?
           end;
    intros H; inversion H; subst; clear H;
    eexists; eexists;
    (split; [reflexivity|]);
    (split; [unfold is_alive; rewrite Hpc; reflexivity|]);
    (split; [reflexivity|]); unfold is_alive; simpl;
    repeat split; auto; try discriminate;
    rewrite Hnum; discriminate.
Qed.

Lemma alive_after_insert (l : list alert_thread) i th' j th :
  <[i := th']> l !! j = Some th ->
  (j = i /\ th = th' /\ (i < length l)%nat) \/ (j <> i /\ l !! j = Some th).
Proof.
  intros H. destruct (decide (j = i)) as [->|Hne].
  - left. destruct (decide (i < length l)%nat) as [Hlt|Hge].
    + rewrite list_lookup_insert_eq in H by exact Hlt.
      inversion H. auto.
    + rewrite list_insert_ge in H by lia.
      apply lookup_lt_Some in H. lia.
  - right. rewrite list_lookup_insert_ne in H by congruence. auto.
Qed.

(** *** Durations that are numbers *)

Lemma numeric_set_clock c t : numeric c -> numeric (set_clock c t).
Proof. unfold numeric. simpl. auto. Qed.

Lemma led_step_numeric c te c' :
  numeric c ->
  match snd te with
  | Call_alert d _ => is_number d = true
  | _ => True
  end ->
  led_step c te = Some c' -> numeric c'.
Proof.
  destruct te as [t e]. cbn [snd]. intros Hnum He. unfold led_step.
  cbv zeta.
  destruct (negb (Qleb (clock c) t)); [discriminate|].
  apply (numeric_set_clock c t) in Hnum.
  set (c0 := set_clock c t) in *. clearbody c0.
  destruct Hnum as [Hths Hcall].
  destruct e as [d p| | | |i].
  - destruct (caller c0); try discriminate.
    intros H; inversion H; subst; clear H. split; [exact Hths|exact He].
  - destruct (caller c0); try discriminate.
    intros H; inversion H; subst; clear H. split; [exact Hths|exact I].
  - unfold caller_step.
    destruct (caller c0) as [|d p|d p since|d p|d p|]; try discriminate.
    + intros H; inversion H; subst; clear H.
      split; [exact Hths|]. simpl. destruct (current_alive c0); exact Hcall.
    + destruct (current_alive c0); [discriminate|].
      intros H; inversion H; subst; clear H. split; [exact Hths|exact Hcall].
    + intros H; inversion H; subst; clear H. split; [exact Hths|exact Hcall].
    + intros H; inversion H; subst; clear H. split; [|exact I].
      intros i th Hth. simpl in Hth.
      destruct (decide (i < length (threads c0))%nat) as [Hlt|Hge].
      * rewrite lookup_app_l in Hth by exact Hlt. exact (Hths i th Hth).
      * rewrite lookup_app_r in Hth by lia.
        destruct (i - length (threads c0))%nat; [|discriminate].
        inversion Hth; subst. exact Hcall.
    + intros H; inversion H; subst; clear H. split; [exact Hths|exact I].
  - destruct (caller c0); try discriminate.
    destruct (current_alive c0 && Qleb (since + 1) t); [|discriminate].
    intros H; inversion H; subst; clear H. split; [exact Hths|exact Hcall].
  - intros Hstep.
    destruct (thread_step_frame c0 i c' Hstep)
      as (th & th' & Hth & _ & Hths' & _ & Hcaller & _ & _ & _ & _ & Hdur).
    split; [|rewrite Hcaller; exact Hcall].
    intros j thj Hj. rewrite Hths' in Hj.
    destruct (alive_after_insert _ _ _ _ _ Hj) as [(-> & -> & _)|(_ & Hj')].
    + rewrite Hdur. exact (Hths i th Hth).
    + exact (Hths j thj Hj').
Qed.

(** *** The LED is high only while a thread runs *)

Lemma led_step_pin c te c' :
  numeric c ->
  (pin_level c = true ->
   exists i th, threads c !! i = Some th /\ is_alive th = true) ->
  led_step c te = Some c' ->
  pin_level c' = true ->
  exists i th, threads c' !! i = Some th /\ is_alive th = true.
Proof.
  destruct te as [t e]. intros Hnum Hpin. unfold led_step. cbv zeta.
  destruct (negb (Qleb (clock c) t)); [discriminate|].
  apply (numeric_set_clock c t) in Hnum.
  change (pin_level c) with (pin_level (set_clock c t)) in Hpin.
  change (threads c) with (threads (set_clock c t)) in Hpin.
  set (c0 := set_clock c t) in *. clearbody c0.
  destruct e as [d p| | | |i].
  - destruct (caller c0); try discriminate.
    intros H; inversion H; subst; clear H. exact Hpin.
  - destruct (caller c0); try discriminate.
    intros H; inversion H; subst; clear H. exact Hpin.
  - unfold caller_step.
    destruct (caller c0) as [|d p|d p since|d p|d p|]; try discriminate.
    + intros H; inversion H; subst; clear H. exact Hpin.
    + destruct (current_alive c0); [discriminate|].
      intros H; inversion H; subst; clear H. exact Hpin.
    + intros H; inversion H; subst; clear H. exact Hpin.
    + intros H; inversion H; subst; clear H. intros _. simpl.
      eexists (length (threads c0)), _. split.
      * rewrite lookup_app_r by lia. rewrite Nat.sub_diag. reflexivity.
      * reflexivity.
    + intros H; inversion H; subst; clear H. discriminate.
  - destruct (caller c0); try discriminate.
    destruct (current_alive c0 && Qleb (since + 1) t); [|discriminate].
    intros H; inversion H; subst; clear H. exact Hpin.
  - intros Hstep Hon.
    destruct (thread_step_frame c0 i c' Hstep)
      as (th & th' & Hth & Hal & Hths & _ & _ & _ & _ & Hoff & _).
    rewrite Hths.
    destruct (is_alive th') eqn:Hal'.
    + exists i, th'. split; [|exact Hal'].
      apply list_lookup_insert_eq. apply lookup_lt_Some in Hth. exact Hth.
    + rewrite (Hoff (proj1 Hnum i th Hth) eq_refl) in Hon. discriminate.
Qed.

(** Over any run, join timeouts included. *)
Lemma led_exec_pin run :
  forall c c',
    numeric c -> numeric_run run ->
    (pin_level c = true ->
     exists i th, threads c !! i = Some th /\ is_alive th = true) ->
    led_exec c run = Some c' ->
    numeric c' /\
    (pin_level c' = true ->
     exists i th, threads c' !! i = Some th /\ is_alive th = true).
Proof.
  induction run as [|te rest IH]; intros c c' Hnum Hrun Hpin Hexec;
    cbn [led_exec] in Hexec.
  - inversion Hexec; subst. auto.
  - inversion Hrun as [|? ? Hte Hrest]; subst.
    destruct (led_step c te) as [c1|] eqn:Hstep; [|discriminate].
    apply (IH c1 c'); [|exact Hrest| |exact Hexec].
    + exact (led_step_numeric c te c1 Hnum Hte Hstep).
    + exact (led_step_pin c te c1 Hnum Hpin Hstep).
Qed.

(** *** As long as no [join] gives up *)







(** ** Claims about [alert] *)




(** ** The "solid" pattern *)

Lemma Qleb_le a b : Qleb a b = true <-> (a <= b)%Q.
Proof.
  unfold Qleb. rewrite negb_true_iff. apply Qltb_ge.
Qed.


Lemma lookup_set_thread c i th th0 :
  threads c !! i = Some th0 ->
  threads (set_thread c i th) !! i = Some th.
Proof.
  intros H. simpl. apply list_lookup_insert_eq.
  apply lookup_lt_Some in H. exact H.
Qed.




Example alert_call_clearing :
  led_exec (led_init 0)
    [(0, Call_alert (VFloat (15 # 100)) "solid"); (0, Caller_step)]%Q
  = Some solid_clearing.
Proof. vm_compute. reflexivity. Qed.












(** * Further properties of the code *)

(** ** The LED is high only while a thread runs *)

(** A thread with the "solid" pattern whose duration is not a number reads
    its [start_time], switches the LED on, and ends at the loop test. *)
Lemma solid_thread_raises c i th t1 t2 t3 :
  threads c !! i = Some th ->
  at_pc th = P_start ->
  String.eqb (pattern th) "blink" = false ->
  as_number (duration th) = None ->
  (clock c <= t1)%Q -> (t1 <= t2)%Q -> (t2 <= t3)%Q ->
  exists c',
    led_exec c [(t1, Thread_step i); (t2, Thread_step i);
                (t3, Thread_step i)] = Some c' /\
    ended c' i /\ pin_level c' = true /\
    forall t, led_step c' (t, Thread_step i) = None.
Proof.
  intros Hth Hpc Hpat Hnum H1 H2 H3.
  assert (Hlt : (i < length (threads c))%nat)
    by (apply lookup_lt_Some in Hth; exact Hth).
  apply Qleb_le in H1, H2, H3.
  eexists. split.
  - cbn [led_exec]. unfold led_step at 1. rewrite H1. cbn [negb]. cbv zeta.
    unfold thread_step at 1.
    change (threads (set_clock c t1)) with (threads c).
    rewrite Hth. cbv zeta. rewrite Hpc, Hpat.
    unfold led_step at 1. cbn [clock set_thread set_clock].
    rewrite H2. cbn [negb]. cbv zeta.
    unfold thread_step at 1. cbn [threads set_thread set_clock].
    rewrite list_lookup_insert_eq by exact Hlt. cbv zeta. cbn [at_pc].
    unfold led_step at 1. cbn [clock set_thread set_clock output].
    rewrite H3. cbn [negb]. cbv zeta.
    unfold thread_step at 1. cbn [threads set_thread set_clock output].
    rewrite list_lookup_insert_eq
      by (rewrite length_insert; exact Hlt).
    cbv zeta. cbn [at_pc goto duration start_time]. unfold py_lt.
    rewrite Hnum. reflexivity.
  - split; [|split].
    + eexists. split.
      * cbn [threads set_thread set_clock output].
        apply list_lookup_insert_eq. rewrite !length_insert. exact Hlt.
      * reflexivity.
    + reflexivity.
    + intros t. unfold led_step.
      match goal with
      | |- context [negb ?g] => destruct (negb g); [reflexivity|]
      end.
      cbv zeta. unfold thread_step.
      cbn [threads set_thread set_clock output].
      rewrite list_lookup_insert_eq by (rewrite !length_insert; exact Hlt).
      reflexivity.
Qed.

(** X1. In every run of the controller in which the durations passed to
    [alert] are numbers, join timeouts included: whenever the pin is high
    some alert thread has not ended yet; so once every thread has ended the
    LED is off.  The condition on the durations is needed: a thread with
    the "solid" pattern whose duration is not a number (the detector passes
    [config["alert_duration"]] as it finds it) executes three statements,
    the last of which raises [TypeError], and leaves the pin high with no
    thread to switch it off. *)
Theorem led_high_only_while_running :
  (forall (t0 : Q) (run : list (Q * event)) (c : LEDController),
      numeric_run run ->
      led_exec (led_init t0) run = Some c ->
      (pin_level c = true ->
       exists i th, threads c !! i = Some th /\ is_alive th = true) /\
      ((forall i th, threads c !! i = Some th -> is_alive th = false) ->
       pin_level c = false))
  /\
  (forall (c : LEDController) (i : nat) (th : alert_thread) (t1 t2 t3 : Q),
      threads c !! i = Some th ->
      at_pc th = P_start ->
      String.eqb (pattern th) "blink" = false ->
      as_number (duration th) = None ->
      (clock c <= t1)%Q -> (t1 <= t2)%Q -> (t2 <= t3)%Q ->
      exists c',
        led_exec c [(t1, Thread_step i); (t2, Thread_step i);
                    (t3, Thread_step i)] = Some c' /\
        ended c' i /\ pin_level c' = true /\
        forall t, led_step c' (t, Thread_step i) = None).
Proof.
  split; [|exact solid_thread_raises].
  intros t0 run c Hnum Hexec.
  destruct (led_exec_pin run (led_init t0) c (numeric_init t0) Hnum)
    as [_ Hinv]; [simpl; discriminate|exact Hexec|].
  split; [exact Hinv|].
  intros Hdead. destruct (pin_level c) eqn:Hpin; [|reflexivity].
  destruct (Hinv eq_refl) as (i & th & Hth & Hal).
  rewrite (Hdead i th Hth) in Hal. discriminate.
Qed.

Lemma led_high_only_while_running_witness :
  match led_exec (led_init 0) (overlap_run ++ overlap_rest)%list with
  | Some c =>
      pin_level c = true ->
      exists i th, threads c !! i = Some th /\ is_alive th = true
  | None => False
  end
  /\
  match led_exec (led_init 0) (alert_call 0 VNone "solid") with
  | Some c =>
      exists c',
        led_exec c [(0, Thread_step 0); (0, Thread_step 0);
                    (0, Thread_step 0)]%Q = Some c' /\
        ended c' 0 /\ pin_level c' = true /\
        forall t, led_step c' (t, Thread_step 0) = None
  | None => False
  end.
Proof.
  split.
  - destruct (led_exec (led_init 0) (overlap_run ++ overlap_rest)%list)
      as [c|] eqn:Hexec.
    + refine (proj1 (proj1 led_high_only_while_running 0%Q _ c _ Hexec)).
      unfold numeric_run, overlap_run, overlap_rest, alert_call.
      repeat constructor.
    + vm_compute in Hexec. discriminate.
  - destruct (led_exec (led_init 0) (alert_call 0 VNone "solid"))
      as [c|] eqn:Hexec.
    + vm_compute in Hexec. inversion Hexec; subst c; clear Hexec.
      match goal with
      | |- context [led_exec ?c0 _] =>
          refine (proj2 led_high_only_while_running c0 0%nat _ 0%Q 0%Q 0%Q
                    eq_refl eq_refl eq_refl eq_refl _ _ _)
      end; vm_compute; discriminate.
    + vm_compute in Hexec. discriminate.
Defined.

(** ** Cancellation is cooperative and bounded *)

Lemma stop_step c i th t c' :
  threads c !! i = Some th ->
  _stop_alert c = true ->
  led_step c (t, Thread_step i) = Some c' ->
  exists th',
    threads c' !! i = Some th' /\
    _stop_alert c' = true /\
    (S (stop_rank (at_pc th')) <= stop_rank (at_pc th))%nat /\
    clock c' = t /\ last_step th' = t /\
    duration th' = duration th /\
    (is_number (duration th) = true ->
     at_pc th' = P_done -> pin_level c' = false).
Proof.
  intros Hth Hstop Hstep. unfold led_step in Hstep.
  destruct (negb (Qleb (clock c) t)); [discriminate|].
  cbv zeta in Hstep. unfold thread_step in Hstep.
  change (threads (set_clock c t)) with (threads c) in Hstep.
  change (_stop_alert (set_clock c t)) with (_stop_alert c) in Hstep.
  change (clock (set_clock c t)) with t in Hstep.
  rewrite Hth in Hstep. cbv zeta in Hstep. rewrite Hstop in Hstep.
  unfold py_lt, is_number in *.
  assert (Hnext : forall c1 th1,
            threads c1 = threads c ->
            threads (set_thread c1 i th1) !! i = Some th1).
  { intros c1 th1 Hc1. apply (lookup_set_thread _ _ _ th). congruence. }
  destruct (as_number (duration th)) as [D|] eqn:Hnum;
    destruct (at_pc th) eqn:Hat;
    repeat match type of Hstep with
           | context [if ?b then _ else _] => destruct b eqn:?
           end;
    try discriminate;
    inversion Hstep; subst c'; clear Hstep;
    (eexists; split; [apply Hnext; reflexivity|]);
    simpl; repeat split; auto; try lia; try discriminate.
Qed.

Lemma stop_enabled c i th t :
  threads c !! i = Some th ->
  at_pc th <> P_done ->
  (clock c <= t)%Q ->
  (last_step th + (2 # 10) <= t)%Q ->
  exists c', led_step c (t, Thread_step i) = Some c'.
Proof.
  intros Hth Hnd Hclock Hwake.
  unfold led_step. apply Qleb_le in Hclock. rewrite Hclock. cbn [negb].
  cbv zeta. unfold thread_step.
  change (threads (set_clock c t)) with (threads c).
  change (clock (set_clock c t)) with t.
  rewrite Hth. cbv zeta.
  assert (H1 : Qleb (last_step th + (1 # 10)) t = true)
    by (apply Qleb_le; lra).
  assert (H2 : Qleb (last_step th + (2 # 10)) t = true)
    by (apply Qleb_le; lra).
  destruct (at_pc th); try contradiction;
    try rewrite H1; try rewrite H2; eauto.
Qed.

Lemma stop_run_bound i run :
  forall c th c' th',
    threads c !! i = Some th ->
    _stop_alert c = true ->
    statements_of i run ->
    led_exec c run = Some c' ->
    threads c' !! i = Some th' ->
    (length run + stop_rank (at_pc th') <= stop_rank (at_pc th))%nat.
Proof.
  induction run as [|[t e] rest IH]; intros c th c' th' Hth Hstop Honly Hexec Hth';
    cbn [led_exec] in Hexec.
  - inversion Hexec; subst. rewrite Hth in Hth'. inversion Hth'; subst.
    simpl. lia.
  - inversion Honly as [|? ? He Hrest]; subst. simpl in He. subst e.
    destruct (led_step c (t, Thread_step i)) as [c1|] eqn:Hstep;
      [|discriminate].
    destruct (stop_step c i th t c1 Hth Hstop Hstep)
      as (th1 & Hth1 & Hstop1 & Hrank & _).
    specialize (IH c1 th1 c' th' Hth1 Hstop1 Hrest Hexec Hth').
    simpl. lia.
Qed.

Lemma stop_finish i n :
  forall c th t,
    threads c !! i = Some th ->
    _stop_alert c = true ->
    (stop_rank (at_pc th) <= n)%nat ->
    at_pc th <> P_done ->
    (clock c <= t)%Q ->
    (last_step th + (2 # 10) <= t)%Q ->
    exists k c'',
      (k <= n)%nat /\
      led_exec c (statements_every (2 # 10) i t k) = Some c'' /\
      ended c'' i /\
      (is_number (duration th) = true -> pin_level c'' = false).
Proof.
  induction n as [|n IH];
    intros c th t Hth Hstop Hrank Hnd Hclock Hwake.
  - exfalso. destruct (at_pc th); simpl in Hrank; try lia. congruence.
  - destruct (stop_enabled c i th t Hth Hnd Hclock Hwake) as [c1 Hstep].
    destruct (stop_step c i th t c1 Hth Hstop Hstep)
      as (th1 & Hth1 & Hstop1 & Hr1 & Hc1 & Hl1 & Hdur1 & Hpin1).
    destruct (at_pc th1) eqn:Hat1.
    14: { exists 1%nat, c1. split; [lia|]. cbn [statements_every led_exec].
          rewrite Hstep. split; [reflexivity|].
          split; [exists th1; auto|].
          intros Hnum. apply Hpin1; [exact Hnum|reflexivity]. }
    all: destruct (IH c1 th1 (t + (2 # 10))%Q Hth1 Hstop1)
           as (k & c'' & Hk & Hexec & Hend & Hpin);
         [ rewrite Hat1 in *; lia
         | rewrite Hat1; discriminate
         | rewrite Hc1; lra
         | rewrite Hl1; lra
         | rewrite Hdur1 in Hpin; exists (S k), c''; split; [lia|];
           cbn [statements_every led_exec]; rewrite Hstep; auto ].
Qed.

Lemma stop_rank_le (p : pc) : (stop_rank p <= 7)%nat.
Proof. destruct p; simpl; lia. Qed.

(** X2. Once the stop signal is set, and for as long as it stays set, an
    alert thread of either pattern executes at most 7 more statements,
    whatever its duration; and from any moment at which its current sleep
    is over it can run to its end within 7 statements, switching the LED
    off as its last one (its duration being a number: otherwise it ends at
    its loop test). *)
Theorem cancelled_thread_ends (c : LEDController) (i : nat) (th : alert_thread) :
  threads c !! i = Some th ->
  _stop_alert c = true ->
  (forall run c' th',
      statements_of i run ->
      led_exec c run = Some c' ->
      threads c' !! i = Some th' ->
      (length run + stop_rank (at_pc th') <= stop_rank (at_pc th))%nat /\
      (length run <= 7)%nat)
  /\
  (forall t,
      at_pc th <> P_done ->
      (clock c <= t)%Q ->
      (last_step th + (2 # 10) <= t)%Q ->
      exists k c'',
        (k <= 7)%nat /\
        led_exec c (statements_every (2 # 10) i t k) = Some c'' /\
        ended c'' i /\
        (is_number (duration th) = true -> pin_level c'' = false)).
Proof.
  intros Hth Hstop. split.
  - intros run c' th' Honly Hexec Hth'.
    pose proof (stop_run_bound i run c th c' th' Hth Hstop Honly Hexec Hth').
    pose proof (stop_rank_le (at_pc th)). lia.
  - intros t Hnd Hclock Hwake.
    exact (stop_finish i 7 c th t Hth Hstop (stop_rank_le _)
             Hnd Hclock Hwake).
Qed.

Lemma cancelled_thread_ends_witness :
  match led_exec (led_init 0) cancel_run with
  | Some c =>
      exists k c'',
        (k <= 7)%nat /\
        led_exec c (statements_every (2 # 10) 0 (3 # 10) k) = Some c'' /\
        ended c'' 0 /\ pin_level c'' = false
  | None => False
  end.
Proof.
  destruct (led_exec (led_init 0) cancel_run) as [c|] eqn:Hexec.
  - vm_compute in Hexec. inversion Hexec; subst c; clear Hexec.
    match goal with
    | |- context [led_exec ?c0 _] =>
        destruct (proj2 (cancelled_thread_ends c0 0 _ eq_refl eq_refl)
                    (3 # 10)%Q) as (k & c'' & Hk & Hrun & Hend & Hpin)
    end.
    + discriminate.
    + vm_compute. discriminate.
    + vm_compute. discriminate.
    + exists k, c''. split; [exact Hk|]. split; [exact Hrun|].
      split; [exact Hend|]. apply Hpin. reflexivity.
  - vm_compute in Hexec. discriminate.
Defined.

(** ** The "blink" pattern *)








Example blink_started_by_alert :
  led_exec (led_init 0) (alert_call 0 (VFloat 1) "blink") = Some blink_started.
Proof. vm_compute. reflexivity. Qed.


(** ** Snapshots *)

(** X4. The file name of a snapshot is built from
    [timestamp.replace(':', '-')]: the result has the length of the
    timestamp, holds no colon, has ['-'] wherever the timestamp has a colon
    and the timestamp's character everywhere else. *)
Theorem replace_colons_spec (s : string) :
  String.length (replace_colons s) = String.length s /\
  (forall k, String.get k (replace_colons s) <> Some ":"%char) /\
  (forall k ch,
      String.get k s = Some ch ->
      String.get k (replace_colons s) =
      Some (if Ascii.eqb ch ":"%char then "-"%char else ch)).
Proof.
  induction s as [|a s (IHlen & IHno & IHget)]; simpl.
  - repeat split; [intros k; destruct k; discriminate|discriminate].
  - split; [congruence|]. split.
    + intros [|k]; simpl; [|apply IHno].
      destruct (Ascii.eqb a ":"%char) eqn:E; [discriminate|].
      intros H. inversion H; subst a. rewrite Ascii.eqb_refl in E.
      discriminate.
    + intros [|k] ch; simpl; [|apply IHget].
      intros H. inversion H; subst. reflexivity.
Qed.

(** X5. An accepted detection with [save_detections] on and a string for
    [detections_dir] triggers the alert and appends the log entry first,
    and then saves the snapshot.  When [mkdir(exist_ok=True)] raises (the
    parent is missing, a file is in the way), the exception escapes
    [handle_detection] and nothing is written.  Otherwise [cv2.imwrite] is
    called for [detection_<timestamp with '-' for ':'>.jpg] in that
    directory, with one box per contour, as many as the [contour_count]
    logged; an exception of [cv2.imwrite] escapes too; and when it returns,
    [handle_detection] returns normally and logs "Saved detection image"
    whether the image was written or not.  With [save_detections] off or
    absent nothing is written. *)
Theorem accepted_detection_snapshot {cv : CV2} {fs : FileSystem}
    (self : VehicleDetector) now stamp a contours v cd d :
  config self !! "detection_cooldown" = Some v ->
  as_number v = Some cd ->
  config self !! "alert_duration" = Some d ->
  (cd <= now - last_detection_time self)%Q ->
  let call := handle_detection self now stamp (FArray a) contours in
  let out := snd call in
  let name := snapshot_name stamp in
  let boxes := drawn_boxes contours in
  (led out = (led self ++ [LedAlert d "solid"])%list /\
   detection_log out =
     (detection_log self ++
        [{| timestamp := stamp; contour_count := length boxes |}])%list)
  /\
  (truthy (dict_get (config self) "save_detections") = false ->
   fst call = Return tt /\ saved out = saved self)
  /\
  (forall dir,
      truthy (dict_get (config self) "save_detections") = true ->
      config self !! "detections_dir" = Some (VStr dir) ->
      (forall e,
          mkdir_exist_ok (saved self) dir = Raise e ->
          fst call = Raise e /\ saved out = saved self)
      /\
      (forall u,
          mkdir_exist_ok (saved self) dir = Return u ->
          (forall e,
              imwrite (saved self ++ [Mkdir dir])%list dir name a boxes
                = Raise e ->
              fst call = Raise e /\
              saved out = (saved self ++ [Mkdir dir])%list)
          /\
          (forall written,
              imwrite (saved self ++ [Mkdir dir])%list dir name a boxes
                = Return written ->
              fst call = Return tt /\
              saved out =
                (saved self ++
                   Mkdir dir ::
                   (if written : bool then [Imwrite dir name a boxes]
                    else []))%list /\
              last (logged out) =
                Some (INFO,
                      ("Saved detection image: " ++ path_str dir name)%string)))).
Proof.
  intros Hv Hcd Hd Hle call out name boxes. subst call out name boxes.
  unfold handle_detection, getitem, py_lt.
  rewrite Hv, Hcd. apply Qltb_ge in Hle. rewrite Hle.
  cbn [config set_last_detection_time logger]. rewrite Hd.
  cbn [config led_do log_append set_last_detection_time logger].
  split; [|split].
  - match goal with
    | |- context [if ?b then _save_detection ?s ?f ?c ?t else _] =>
        destruct b;
        [ destruct (save_detection_frame s f c t) as (_ & Hl & _ & Hg);
          rewrite Hl, Hg
        | ]
    end; cbn [snd led detection_log led_do log_append logger
              set_last_detection_time];
      unfold drawn_boxes; rewrite length_map; split; reflexivity.
  - intros Hsave. rewrite Hsave. split; reflexivity.
  - intros dir Hsave Hdir. rewrite Hsave.
    unfold _save_detection, getitem.
    cbn [config led_do log_append set_last_detection_time logger saved].
    rewrite Hdir. split.
    + intros e Hmk. rewrite Hmk. split; reflexivity.
    + intros u Hmk. rewrite Hmk.
      cbn [saved fs_do log_append led_do logger set_last_detection_time].
      unfold snapshot_name, drawn_boxes.
      split.
      * intros e Hw. rewrite Hw. split; reflexivity.
      * intros written Hw. rewrite Hw. cbn [fst snd].
        split; [reflexivity|].
        destruct written;
          cbn [saved logged fs_do logger log_append led_do
               set_last_detection_time]; split;
          try (rewrite <- app_assoc; reflexivity);
          try reflexivity; apply last_snoc.
Qed.

Lemma accepted_detection_snapshot_witness :
  saved (snd (handle_detection (fs := SimFS) sim_saving_detector (3 # 1)
                "2024-05-01T10:00:00"
                (FArray [[[255; 255; 255]]]) [(0, 1)]))
  = [Mkdir "detections";
     Imwrite "detections" "detection_2024-05-01T10-00-00.jpg"
       [[[255; 255; 255]]] [(0, 0, 1, 1)]]
  /\
  handle_detection (fs := SimFS) sim_nested_dir_detector (3 # 1)
    "2024-05-01T10:00:00" (FArray [[[255; 255; 255]]]) [(0, 1)]
  = (Raise FileNotFoundError,
     snd (handle_detection (fs := SimFS) sim_nested_dir_detector (3 # 1)
            "2024-05-01T10:00:00" (FArray [[[255; 255; 255]]]) [(0, 1)])).
Proof.
  split.
  - destruct (accepted_detection_snapshot (cv := SimCV) (fs := SimFS)
                sim_saving_detector
                (3 # 1) "2024-05-01T10:00:00" [[[255; 255; 255]]] [(0, 1)]
                (VFloat (2 # 1)) (2 # 1) (VFloat (5 # 1))
                eq_refl eq_refl eq_refl) as (_ & _ & Hsave).
    { vm_compute. discriminate. }
    destruct (Hsave "detections" eq_refl eq_refl) as [_ Hmade].
    destruct (Hmade tt eq_refl) as [_ Hwritten].
    destruct (Hwritten true eq_refl) as (_ & Hsaved & _).
    exact Hsaved.
  - destruct (accepted_detection_snapshot (cv := SimCV) (fs := SimFS)
                sim_nested_dir_detector
                (3 # 1) "2024-05-01T10:00:00" [[[255; 255; 255]]] [(0, 1)]
                (VFloat (2 # 1)) (2 # 1) (VFloat (5 # 1))
                eq_refl eq_refl eq_refl) as (_ & _ & Hsave).
    { vm_compute. discriminate. }
    destruct (Hsave "nope/child" eq_refl eq_refl) as [Hfail _].
    destruct (Hfail FileNotFoundError eq_refl) as [Hraise _].
    rewrite <- Hraise. apply surjective_pairing.
Defined.

(** X6. What [handle_detection] leaves behind when the configuration lacks
    a key.  Without [detection_cooldown] it raises [KeyError] and changes
    nothing.  Without [alert_duration] a detection outside the cooldown
    window raises [KeyError] after [last_detection_time] was set to [now]:
    no alert is triggered and nothing is logged, and a detection that
    follows within the cooldown is rejected as if the first had been
    accepted.  With [save_detections] on and no [detections_dir] it raises
    [KeyError] after the alert and the log entry. *)
Theorem handle_detection_missing_keys {cv : CV2} {fs : FileSystem} (self : VehicleDetector)
    now stamp frame contours :
  (config self !! "detection_cooldown" = None ->
   handle_detection self now stamp frame contours =
   (Raise (KeyError "detection_cooldown"), self))
  /\
  (forall v cd,
      config self !! "detection_cooldown" = Some v ->
      as_number v = Some cd ->
      (cd <= now - last_detection_time self)%Q ->
      config self !! "alert_duration" = None ->
      let out := snd (handle_detection self now stamp frame contours) in
      fst (handle_detection self now stamp frame contours) =
        Raise (KeyError "alert_duration") /\
      last_detection_time out = now /\
      led out = led self /\
      detection_log out = detection_log self /\
      forall later stamp' frame' contours',
        (later - now < cd)%Q ->
        handle_detection out later stamp' frame' contours' = (Return tt, out))
  /\
  (forall v cd d,
      config self !! "detection_cooldown" = Some v ->
      as_number v = Some cd ->
      (cd <= now - last_detection_time self)%Q ->
      config self !! "alert_duration" = Some d ->
      truthy (dict_get (config self) "save_detections") = true ->
      config self !! "detections_dir" = None ->
      let out := snd (handle_detection self now stamp frame contours) in
      fst (handle_detection self now stamp frame contours) =
        Raise (KeyError "detections_dir") /\
      led out = (led self ++ [LedAlert d "solid"])%list /\
      length (detection_log out) = S (length (detection_log self)) /\
      saved out = saved self).
Proof.
  split; [|split].
  - intros Hnone. unfold handle_detection, getitem. rewrite Hnone. reflexivity.
  - intros v cd Hv Hcd Hle Hnone out. subst out.
    assert (Hrun : handle_detection self now stamp frame contours =
              (Raise (KeyError "alert_duration"),
               logger (set_last_detection_time self now) INFO
                 ("Vehicle detected at " ++ stamp)%string)).
    { unfold handle_detection, getitem, py_lt.
      rewrite Hv, Hcd. apply Qltb_ge in Hle. rewrite Hle.
      cbn [config set_last_detection_time logger]. rewrite Hnone.
      reflexivity. }
    rewrite Hrun. cbn [fst snd].
    repeat split.
    intros later stamp' frame' contours' Hlt.
    apply (handle_detection_rejected _ _ _ _ _ v cd); auto.
  - intros v cd d Hv Hcd Hle Hd Hsave Hnone out. subst out.
    unfold handle_detection, getitem, py_lt.
    rewrite Hv, Hcd. apply Qltb_ge in Hle. rewrite Hle.
    cbn [config set_last_detection_time logger]. rewrite Hd.
    cbn [config led_do log_append set_last_detection_time logger]. rewrite Hsave.
    unfold _save_detection, getitem.
    cbn [config led_do log_append set_last_detection_time logger].
    rewrite Hnone.
    cbn [fst snd led detection_log saved log_append led_do logger
         set_last_detection_time].
    rewrite length_app. simpl. repeat split. lia.
Qed.

Lemma handle_detection_missing_keys_witness :
  fst (handle_detection (fs := SimFS) sim_no_duration_detector (3 # 1) "" stripe_frame [(1, 3)])
  = Raise (KeyError "alert_duration") /\
  last_detection_time
    (snd (handle_detection (fs := SimFS) sim_no_duration_detector (3 # 1) ""
            stripe_frame [(1, 3)])) = (3 # 1)%Q.
Proof.
  destruct (handle_detection_missing_keys (cv := SimCV) (fs := SimFS)
              sim_no_duration_detector (3 # 1) "" stripe_frame [(1, 3)])
    as (_ & Hdur & _).
  destruct (Hdur (VFloat (2 # 1)) (2 # 1) eq_refl eq_refl) as (H1 & H2 & _).
  - vm_compute. discriminate.
  - reflexivity.
  - split; [exact H1|exact H2].
Defined.

(** ** The detection log and the alerts *)

Section LogFacts.
Context {cv : CV2} {fs : FileSystem}.




End LogFacts.




(** ** [run]: starting and cleaning up *)

Section RunFacts.
Context {cv : CV2} {fs : FileSystem}.



End RunFacts.



(** ** More on [detect_motion] and [__init__] *)

(** X9. [detect_motion] changes nothing of the detector but its background
    model, and not even that when it raises at the region of interest or at
    the colour conversion: then the detector is returned as it was. *)
Theorem detect_motion_touches_only_background {cv : CV2}
    (self : VehicleDetector) (frame : frame_val) :
  snd (detect_motion self frame) =
    set_bg_subtractor self (bg_subtractor (snd (detect_motion self frame)))
  /\
  (forall e s,
      regions self frame = (Raise e, s) ->
      detect_motion self frame = (Raise e, self)).
Proof.
  split.
  - unfold detect_motion.
    destruct (if truthy _ then _ else _) as [f|e]; [|destruct self; reflexivity].
    destruct (match f with FNone => _ | FArray a => _ end) as [g|e];
      [|destruct self; reflexivity].
    destruct (bg_apply _ _) as [bg mask].
    destruct (significant _ _) as [sig|e]; reflexivity.
  - intros e s Hreg. rewrite detect_motion_regions, Hreg.
    unfold regions in Hreg.
    destruct (if truthy _ then _ else _) as [f|e0].
    + unfold extract_contours in Hreg. destruct f as [|a].
      * inversion Hreg; subst. reflexivity.
      * destruct (cvtColor_BGR2GRAY a) as [g|e1].
        -- destruct (bg_apply _ _). discriminate.
        -- inversion Hreg; subst. reflexivity.
    + inversion Hreg; subst. reflexivity.
Qed.

Lemma detect_motion_touches_only_background_witness :
  detect_motion sim_detector (FArray []) = (Raise Cv2Error, sim_detector).
Proof.
  destruct (detect_motion_touches_only_background (cv := SimCV)
              sim_detector (FArray [])) as [_ Hraise].
  apply (Hraise Cv2Error sim_detector). vm_compute. reflexivity.
Defined.

(** X10. [detect_motion] reads [min_contour_area] once per contour found:
    with the option missing from the configuration, a frame without any
    contour still gives [(False, [])], and a frame with a contour raises
    [KeyError]; in both cases the background model has been updated. *)
Theorem min_contour_area_read_per_contour {cv : CV2}
    (self : VehicleDetector) (frame : frame_val) contours s :
  config self !! "min_contour_area" = None ->
  regions self frame = (Return contours, s) ->
  detect_motion self frame =
    match contours with
    | [] => (Return (false, []), s)
    | _ :: _ => (Raise (KeyError "min_contour_area"), s)
    end.
Proof.
  intros Hnone Hreg. rewrite detect_motion_regions, Hreg.
  destruct contours as [|c cs]; [reflexivity|].
  cbn [significant]. unfold getitem. rewrite Hnone. reflexivity.
Qed.

Lemma min_contour_area_read_per_contour_witness :
  fst (detect_motion (sim_detector_with ∅) shadow_frame) = Return (false, []) /\
  fst (detect_motion (sim_detector_with ∅) stripe_frame)
  = Raise (KeyError "min_contour_area").
Proof.
  split.
  - erewrite (min_contour_area_read_per_contour (cv := SimCV)
                (sim_detector_with ∅) shadow_frame []);
      [reflexivity|reflexivity|vm_compute; reflexivity].
  - erewrite (min_contour_area_read_per_contour (cv := SimCV)
                (sim_detector_with ∅) stripe_frame [(0, 3); (1, 3); (2, 3)]);
      [reflexivity|reflexivity|vm_compute; reflexivity].
Defined.

(** X11. What the constructor needs of a configuration file that is
    present: [VehicleDetector(...)] succeeds exactly when the file parses to
    a JSON object that has [led_pin], [bg_history] and [var_threshold] and
    the background subtractor accepts the latter two; the detector then
    holds the object as its configuration, unmerged, with
    [last_detection_time = 0], an empty detection log and no camera.  Any
    other top-level JSON value raises [TypeError]. *)
Theorem init_required_keys {cv : CV2} :
  (forall d : gmap string pyval,
      (exists self, __init__ (Present (Return (JObject d))) = Return self)
      <->
      (exists pin history vt bg,
          d !! "led_pin" = Some pin /\
          d !! "bg_history" = Some history /\
          d !! "var_threshold" = Some vt /\
          createBackgroundSubtractorMOG2 history vt = Return bg))
  /\
  (forall (d : gmap string pyval) (self : VehicleDetector),
      __init__ (Present (Return (JObject d))) = Return self ->
      config self = d /\ last_detection_time self = 0%Q /\
      detection_log self = [] /\ camera self = CamNone /\
      saved self = [] /\ logged self = [] /\
      exists pin, d !! "led_pin" = Some pin /\ led self = [LedInit pin])
  /\
  (forall v, __init__ (Present (Return (JOther v))) = Raise TypeError)
  /\
  (forall e, __init__ (Present (Raise e)) = Raise e).
Proof.
  split; [|split; [|split]].
  - intros d. unfold __init__, _load_config, doc_getitem, getitem.
    cbv beta iota delta [rbind]. split.
    + intros [self H].
      destruct (d !! "led_pin") as [pin|]; [|discriminate].
      destruct (d !! "bg_history") as [history|]; [|discriminate].
      destruct (d !! "var_threshold") as [vt|]; [|discriminate].
      destruct (createBackgroundSubtractorMOG2 history vt) as [bg|e] eqn:Hbg;
        [|discriminate].
      exists pin, history, vt, bg. auto.
    + intros (pin & history & vt & bg & -> & -> & -> & Hbg).
      rewrite Hbg. eexists. reflexivity.
  - intros d self. unfold __init__, _load_config, doc_getitem, getitem.
    cbv beta iota delta [rbind].
    destruct (d !! "led_pin") as [pin|]; [|discriminate].
    destruct (d !! "bg_history") as [history|]; [|discriminate].
    destruct (d !! "var_threshold") as [vt|]; [|discriminate].
    destruct (createBackgroundSubtractorMOG2 history vt) as [bg|e];
      [|discriminate].
    intros H. inversion H; subst; clear H. cbn.
    repeat split; auto. exists pin. auto.
  - intros v. reflexivity.
  - intros e. reflexivity.
Qed.

Lemma init_required_keys_witness :
  exists self : @VehicleDetector SimCV,
    __init__ (Present (Return (JObject
       (<["led_pin" := VInt 17]>
       (<["bg_history" := VInt 500]>
       (<["var_threshold" := VInt 50]> ∅)))))) = Return self.
Proof.
  destruct (init_required_keys (cv := SimCV)) as (Hiff & _).
  apply Hiff. exists (VInt 17), (VInt 500), (VInt 50), 0%nat.
  repeat split; reflexivity.
Defined.

(** ** The geometry of the region of interest *)

Lemma py_slice_length {A} (l : list A) (i n : Z) :
  0 <= i -> 0 <= n -> i + n <= Z.of_nat (length l) ->
  length (py_slice l i (i + n)) = Z.to_nat n.
Proof.
  intros Hi Hn Hle. unfold py_slice, slice_bound.
  destruct (Z.ltb_spec i 0) as [?|_]; [lia|].
  destruct (Z.ltb_spec (i + n) 0) as [?|_]; [lia|].
  rewrite length_take, length_drop. lia.
Qed.

Lemma py_slice_length_le {A} (l : list A) (i j : Z) :
  (length (py_slice l i j) <= length l)%nat.
Proof.
  unfold py_slice. rewrite length_take, length_drop. lia.
Qed.

Lemma py_slice_from_end {A} (l : list A) (i n : Z) :
  i < 0 -> 0 <= Z.of_nat (length l) + i -> 0 <= n -> n < - i ->
  py_slice l i (i + n) =
  py_slice l (Z.of_nat (length l) + i) (Z.of_nat (length l) + i + n).
Proof.
  intros Hi Hlen Hn Hlt. unfold py_slice, slice_bound.
  destruct (Z.ltb_spec i 0) as [_|?]; [|lia].
  destruct (Z.ltb_spec (i + n) 0) as [_|?]; [|lia].
  destruct (Z.ltb_spec (Z.of_nat (length l) + i) 0) as [?|_]; [lia|].
  destruct (Z.ltb_spec (Z.of_nat (length l) + i + n) 0) as [?|_]; [lia|].
  f_equal; [f_equal; lia|f_equal; f_equal; lia].
Qed.

Lemma py_slice_wraps_to_empty {A} (l : list A) (i n : Z) :
  i < 0 -> - i <= n -> n <= Z.of_nat (length l) ->
  py_slice l i (i + n) = [].
Proof.
  intros Hi Hn Hle. unfold py_slice, slice_bound.
  destruct (Z.ltb_spec i 0) as [_|?]; [|lia].
  destruct (Z.ltb_spec (i + n) 0) as [?|_]; [lia|].
  replace (Z.to_nat _) with 0%nat by lia. reflexivity.
Qed.

(** X12. The crop [frame[y:y+h, x:x+w]] of a [H] by [W] frame.  A rectangle
    inside the frame gives a frame of [h] rows of [w] pixels whose pixel
    [(r, c)] is pixel [(y + r, x + c)] of the original.  No rectangle is
    rejected: the crop never has more rows than the frame; a negative [y]
    counts from the bottom edge, selecting rows [H + y] to [H + y + h]
    while [h < -y], and an empty frame once [-y <= h <= H]. *)
Theorem roi_crop_window {A} (a : list (list A)) (x y w h : Z) (H W : nat) :
  length a = H ->
  Forall (fun row => length row = W) a ->
  (0 <= x -> 0 <= y -> 0 <= w -> 0 <= h ->
   x + w <= Z.of_nat W -> y + h <= Z.of_nat H ->
   length (crop a x y w h) = Z.to_nat h /\
   Forall (fun row => length row = Z.to_nat w) (crop a x y w h) /\
   forall r c, 0 <= r < h -> 0 <= c < w ->
               pix (crop a x y w h) r c = pix a (y + r) (x + c))
  /\
  (length (crop a x y w h) <= H)%nat
  /\
  (y < 0 -> 0 <= Z.of_nat H + y -> 0 <= h -> h < - y ->
   crop a x y w h = crop a x (Z.of_nat H + y) w h)
  /\
  (y < 0 -> - y <= h -> h <= Z.of_nat H -> crop a x y w h = []).
Proof.
  intros Hlen Hrows. split; [|split; [|split]].
  - intros Hx Hy Hw Hh Hxw Hyh. split; [|split].
    + unfold crop. rewrite length_map. apply py_slice_length; lia.
    + unfold crop. apply Forall_forall. intros row Hin.
      apply list_elem_of_In, in_map_iff in Hin.
      destruct Hin as (row0 & <- & Hin0).
      apply py_slice_length; try lia.
      assert (Hrow0 : In row0 a).
      { unfold py_slice in Hin0. apply list_elem_of_In in Hin0.
        apply list_elem_of_In.
        eapply subseteq_drop, subseteq_take, Hin0. }
      rewrite Forall_forall in Hrows.
      rewrite (Hrows row0) by (apply list_elem_of_In; exact Hrow0). lia.
    + intros r c Hr Hc. rewrite pix_crop by lia.
      destruct (Z.ltb_spec r h); [|lia].
      destruct (Z.ltb_spec c w); [|lia]. reflexivity.
  - unfold crop. rewrite length_map, <- Hlen. apply py_slice_length_le.
  - intros Hy Hin Hh Hlt. unfold crop. rewrite <- Hlen.
    rewrite (py_slice_from_end a y h) by lia. reflexivity.
  - intros Hy Hh Hle. unfold crop.
    rewrite (py_slice_wraps_to_empty a y h) by lia. reflexivity.
Qed.

Lemma roi_crop_window_witness :
  length (crop [[1; 2; 3; 4]; [5; 6; 7; 8]; [9; 10; 11; 12]] 1 1 2 2)
  = 2%nat /\
  crop [[1; 2; 3; 4]; [5; 6; 7; 8]; [9; 10; 11; 12]] 1 (-2) 2 2 = [].
Proof.
  destruct (roi_crop_window [[1; 2; 3; 4]; [5; 6; 7; 8]; [9; 10; 11; 12]]
              1 1 2 2 3 4 eq_refl) as (Hin & _).
  { repeat constructor. }
  destruct (roi_crop_window [[1; 2; 3; 4]; [5; 6; 7; 8]; [9; 10; 11; 12]]
              1 (-2) 2 2 3 4 eq_refl) as (_ & _ & _ & Hempty).
  { repeat constructor. }
  split.
  - apply Hin; simpl; lia.
  - apply Hempty; simpl; lia.
Defined.

(** ** The mask handed to the contour extraction *)

Lemma samples_Forall (P : Z -> Prop) (k : list (Z * Z)) (m : list (list Z)) r c :
  Forall (Forall P) m -> Forall P (samples k m r c).
Proof.
  intros Hm. apply Forall_forall. intros v Hv.
  unfold samples in Hv. apply list_elem_of_omap in Hv.
  destruct Hv as (d & _ & Hd). exact (pix_Forall P m _ _ v Hm Hd).
Qed.

Lemma fold_max_binary (l : list Z) :
  Forall (fun v => v = 0 \/ v = 255) l ->
  fold_right Z.max 0 l = 0 \/ fold_right Z.max 0 l = 255.
Proof.
  induction 1 as [|x l Hx _ IH]; simpl; [auto|].
  destruct Hx as [->| ->], IH as [->| ->]; simpl; auto.
Qed.

Lemma fold_min_binary (l : list Z) :
  Forall (fun v => v = 0 \/ v = 255) l ->
  fold_right Z.min 255 l = 0 \/ fold_right Z.min 255 l = 255.
Proof.
  induction 1 as [|x l Hx _ IH]; simpl; [auto|].
  destruct Hx as [->| ->], IH as [->| ->]; simpl; auto.
Qed.

Lemma imap_rows_same_shape (f : nat -> nat -> Z) (m : list (list Z)) :
  Forall2 (fun r1 r2 : list Z => length r1 = length r2) m
    (imap (fun r row => imap (fun c (_ : Z) => f r c) row) m).
Proof.
  apply Forall2_same_length_lookup. split.
  - rewrite length_imap. reflexivity.
  - intros i r1 r2 H1 H2. rewrite list_lookup_imap, H1 in H2.
    simpl in H2. inversion H2; subst. rewrite length_imap. reflexivity.
Qed.

Lemma imap_rows_Forall (P : Z -> Prop) (f : nat -> nat -> Z) (m : list (list Z)) :
  (forall r c, P (f r c)) ->
  Forall (Forall P) (imap (fun r row => imap (fun c (_ : Z) => f r c) row) m).
Proof.
  intros Hf. apply Forall_lookup. intros r row' Hr.
  rewrite list_lookup_imap in Hr.
  destruct (m !! r) as [row|]; [|discriminate].
  simpl in Hr. inversion Hr; subst. apply Forall_lookup. intros c v Hc.
  rewrite list_lookup_imap in Hc.
  destruct (row !! c); [|discriminate].
  simpl in Hc. inversion Hc; subst. apply Hf.
Qed.

Lemma threshold_binary (m : list (list Z)) :
  Forall (Forall (fun v => v = 0 \/ v = 255)) (threshold m 250 255).
Proof.
  unfold threshold. apply Forall_forall. intros row Hrow.
  apply list_elem_of_In, in_map_iff in Hrow. destruct Hrow as (row0 & <- & _).
  apply Forall_forall. intros v Hv.
  apply list_elem_of_In, in_map_iff in Hv. destruct Hv as (v0 & <- & _).
  destruct (250 <? v0); auto.
Qed.

Lemma threshold_same_shape (m : list (list Z)) t mx :
  Forall2 (fun r1 r2 : list Z => length r1 = length r2) m (threshold m t mx).
Proof.
  unfold threshold. induction m as [|row m IH]; simpl; constructor; auto.
  rewrite length_map. reflexivity.
Qed.

Lemma same_shape_trans (m1 m2 m3 : list (list Z)) :
  Forall2 (fun r1 r2 : list Z => length r1 = length r2) m1 m2 ->
  Forall2 (fun r1 r2 : list Z => length r1 = length r2) m2 m3 ->
  Forall2 (fun r1 r2 : list Z => length r1 = length r2) m1 m3.
Proof.
  intros H12. revert m3. induction H12 as [|r1 r2 m1 m2 Hr _ IH];
    intros m3 H23; inversion H23; subst; constructor; [congruence|auto].
Qed.

(** X13. Whatever mask the background model returns, the mask that
    [detect_motion] hands to [cv2.findContours] after thresholding, closing
    and opening has the shape of that mask, row by row, and is binary:
    every pixel is 0 or 255. *)
Theorem cleaned_mask_binary_same_shape (fg_mask : list (list Z)) :
  Forall2 (fun r1 r2 : list Z => length r1 = length r2)
    fg_mask (cleaned_mask fg_mask) /\
  Forall (Forall (fun v => v = 0 \/ v = 255)) (cleaned_mask fg_mask).
Proof.
  unfold cleaned_mask, morphologyEx.
  set (k := MORPH_ELLIPSE_5x5).
  set (m0 := threshold fg_mask 250 255).
  assert (B0 : Forall (Forall (fun v => v = 0 \/ v = 255)) m0)
    by apply threshold_binary.
  assert (Bd : forall m, Forall (Forall (fun v => v = 0 \/ v = 255)) m ->
                 Forall (Forall (fun v => v = 0 \/ v = 255)) (dilate k m)).
  { intros m Hm. unfold dilate.
    apply (imap_rows_Forall _
             (fun r c => fold_right Z.max 0
                           (samples k m (Z.of_nat r) (Z.of_nat c)))).
    intros r c. apply fold_max_binary, samples_Forall, Hm. }
  assert (Be : forall m, Forall (Forall (fun v => v = 0 \/ v = 255)) m ->
                 Forall (Forall (fun v => v = 0 \/ v = 255)) (erode k m)).
  { intros m Hm. unfold erode.
    apply (imap_rows_Forall _
             (fun r c => fold_right Z.min 255
                           (samples k m (Z.of_nat r) (Z.of_nat c)))).
    intros r c. apply fold_min_binary, samples_Forall, Hm. }
  assert (Sd : forall m, Forall2 (fun r1 r2 : list Z => length r1 = length r2)
                           m (dilate k m)).
  { intros m. unfold dilate.
    apply (imap_rows_same_shape
             (fun r c => fold_right Z.max 0
                           (samples k m (Z.of_nat r) (Z.of_nat c)))). }
  assert (Se : forall m, Forall2 (fun r1 r2 : list Z => length r1 = length r2)
                           m (erode k m)).
  { intros m. unfold erode.
    apply (imap_rows_same_shape
             (fun r c => fold_right Z.min 255
                           (samples k m (Z.of_nat r) (Z.of_nat c)))). }
  split.
  - eapply same_shape_trans; [apply threshold_same_shape|]. fold m0.
    eapply same_shape_trans; [apply Sd|].
    eapply same_shape_trans; [apply Se|].
    eapply same_shape_trans; [apply Se|]. apply Sd.
  - apply Bd, Be, Be, Bd, B0.
Qed.

(** ** [create_camera] *)

(** X14. [create_camera] raises exactly when the configuration asks for the
    "pi" camera and [picamera2] is not installed.  Without a [camera_type]
    (absent or null) it builds the Pi camera if [picamera2] is installed and
    the USB camera otherwise; any other [camera_type] than "pi" gives the
    USB camera.  Each of [frame_width], [frame_height], [fps] and
    [camera_index] is passed on as configured, and as 640, 480, 30 and 0
    when it is absent. *)
Theorem create_camera_spec (available : bool) (config : gmap string pyval) :
  let width := match config !! "frame_width" with Some v => v | None => VInt 640 end in
  let height := match config !! "frame_height" with Some v => v | None => VInt 480 end in
  let fps := match config !! "fps" with Some v => v | None => VInt 30 end in
  let index := match config !! "camera_index" with Some v => v | None => VInt 0 end in
  ((exists e, snd (create_camera available config) = Raise e) <->
   (config !! "camera_type" = Some (VStr "pi") /\ available = false))
  /\
  (config !! "camera_type" = None \/ config !! "camera_type" = Some VNone ->
   snd (create_camera available config) =
   Return (if available then PiCamera width height fps
           else USBCamera index width height fps))
  /\
  (config !! "camera_type" = Some (VStr "pi") -> available = true ->
   create_camera available config = ([], Return (PiCamera width height fps)))
  /\
  (forall v,
      config !! "camera_type" = Some v -> v <> VNone -> v <> VStr "pi" ->
      create_camera available config =
      ([], Return (USBCamera index width height fps))).
Proof.
  intros width height fps index.
  assert (Hother : forall v, v <> VNone -> v <> VStr "pi" ->
            config !! "camera_type" = Some v ->
            create_camera available config =
            ([], Return (USBCamera index width height fps))).
  { intros v Hn Hp Hv. unfold create_camera, dict_get, dict_get_default.
    rewrite Hv.
    assert (Heq : py_eq_str v "pi" = false).
    { destruct v; try reflexivity. simpl.
      destruct (String.eqb_spec s "pi"); [subst; congruence|reflexivity]. }
    destruct v; try congruence; rewrite Heq; reflexivity. }
  assert (Hauto : config !! "camera_type" = None \/
                  config !! "camera_type" = Some VNone ->
            snd (create_camera available config) =
            Return (if available then PiCamera width height fps
                    else USBCamera index width height fps)).
  { intros Hv. unfold create_camera, dict_get, dict_get_default.
    destruct Hv as [-> | ->]; destruct available; reflexivity. }
  assert (Hpi : config !! "camera_type" = Some (VStr "pi") ->
            create_camera available config =
            ([], if available then Return (PiCamera width height fps)
                 else Raise (RuntimeError
                   "picamera2 not installed. Run: sudo apt install python3-picamera2"))).
  { intros Hv. unfold create_camera, dict_get, dict_get_default.
    rewrite Hv. destruct available; reflexivity. }
  split; [|split; [|split]].
  - split.
    + intros [e He].
      destruct (config !! "camera_type") as [v|] eqn:Hv.
      * destruct (decide_rel (fun a b : bool => a = b) (py_eq_str v "pi") true)
          as [Hp|Hp].
        -- destruct v; try discriminate. simpl in Hp.
           apply String.eqb_eq in Hp. subst s.
           rewrite (Hpi eq_refl) in He. destruct available; [discriminate|].
           auto.
        -- destruct v as [| | | |s| |].
           ++ rewrite (Hauto (or_intror eq_refl)) in He.
              destruct available; discriminate.
           ++ rewrite (Hother (VBool b)) in He; [discriminate..|reflexivity].
           ++ rewrite (Hother (VInt z)) in He; [discriminate..|reflexivity].
           ++ rewrite (Hother (VFloat q)) in He; [discriminate..|reflexivity].
           ++ rewrite (Hother (VStr s)) in He;
                [discriminate|discriminate| |reflexivity].
              intros E. inversion E; subst s. apply Hp. reflexivity.
           ++ rewrite (Hother (VList l)) in He; [discriminate..|reflexivity].
           ++ rewrite (Hother (VDict d)) in He; [discriminate..|reflexivity].
      * rewrite (Hauto (or_introl eq_refl)) in He.
        destruct available; discriminate.
    + intros [Hv ->]. rewrite (Hpi Hv). eexists. reflexivity.
  - exact Hauto.
  - intros Hv ->. rewrite (Hpi Hv). reflexivity.
  - intros v Hv Hn Hp. exact (Hother v Hn Hp Hv).
Qed.

Lemma create_camera_spec_witness :
  create_camera true (<["camera_type" := VStr "usb"]> ∅)
  = ([], Return (USBCamera (VInt 0) (VInt 640) (VInt 480) (VInt 30))).
Proof.
  destruct (create_camera_spec true (<["camera_type" := VStr "usb"]> ∅))
    as (_ & _ & _ & Hother).
  rewrite (Hother (VStr "usb") eq_refl); [reflexivity|discriminate|discriminate].
Defined.

(** ** One thread per call of [alert] *)

Lemma led_step_threads c te c' :
  led_step c te = Some c' ->
  (length (threads c') + in_alert (caller c') =
     length (threads c) + in_alert (caller c) + alert_calls [te])%nat /\
  (_alert_thread c = match length (threads c) with
                     | O => None
                     | S n => Some n
                     end ->
   _alert_thread c' = match length (threads c') with
                      | O => None
                      | S n => Some n
                      end).
Proof.
  destruct te as [t e]. unfold led_step, alert_calls. cbv zeta.
  destruct (negb (Qleb (clock c) t)); [discriminate|].
  change (threads c) with (threads (set_clock c t)).
  change (caller c) with (caller (set_clock c t)).
  change (_alert_thread c) with (_alert_thread (set_clock c t)).
  set (c0 := set_clock c t). clearbody c0.
  destruct e as [d p| | | |i]; cbn [List.filter snd length].
  - destruct (caller c0) eqn:Hc; try discriminate.
    intros H; inversion H; subst; clear H. simpl. split; [lia|auto].
  - destruct (caller c0) eqn:Hc; try discriminate.
    intros H; inversion H; subst; clear H. simpl. split; [lia|auto].
  - unfold caller_step.
    destruct (caller c0) as [|d p|d p since|d p|d p|] eqn:Hc; try discriminate.
    + intros H; inversion H; subst; clear H. simpl.
      destruct (current_alive c0); simpl; split; try lia; auto.
    + destruct (current_alive c0); [discriminate|].
      intros H; inversion H; subst; clear H. simpl. split; [lia|auto].
    + intros H; inversion H; subst; clear H. simpl. split; [lia|auto].
    + intros H; inversion H; subst; clear H. simpl.
      rewrite length_app. simpl. split; [lia|].
      intros _. rewrite Nat.add_1_r. reflexivity.
    + intros H; inversion H; subst; clear H. simpl. split; [lia|auto].
  - destruct (caller c0) eqn:Hc; try discriminate.
    destruct (current_alive c0 && Qleb (since + 1) t); [|discriminate].
    intros H; inversion H; subst; clear H. simpl. split; [lia|auto].
  - intros Hstep.
    destruct (thread_step_frame c0 i c' Hstep)
      as (th & th' & _ & _ & Hths & Hcur & Hcaller & _).
    rewrite Hths, Hcur, Hcaller, length_insert. split; [lia|auto].
Qed.

(** X15. In every run of the controller, join timeouts included, each call
    of [alert] starts exactly one thread, as its last statement, and no
    thread is ever dropped: the threads started number the calls of
    [alert], less the one call still in progress if there is one; and
    [_alert_thread] is always the thread started last. *)
Theorem one_thread_per_alert (t0 : Q) (run : list (Q * event))
    (c : LEDController) :
  led_exec (led_init t0) run = Some c ->
  (length (threads c) + in_alert (caller c))%nat = alert_calls run /\
  _alert_thread c = match length (threads c) with
                    | O => None
                    | S n => Some n
                    end.
Proof.
  assert (Hgen : forall evs c0 c,
            led_exec c0 evs = Some c ->
            (length (threads c) + in_alert (caller c) =
               length (threads c0) + in_alert (caller c0) + alert_calls evs)%nat /\
            (_alert_thread c0 = match length (threads c0) with
                                | O => None
                                | S n => Some n
                                end ->
             _alert_thread c = match length (threads c) with
                               | O => None
                               | S n => Some n
                               end)).
  { clear. induction evs as [|te rest IH]; intros c0 c Hexec;
      cbn [led_exec] in Hexec.
    - inversion Hexec; subst. unfold alert_calls. simpl. split; [lia|auto].
    - destruct (led_step c0 te) as [c1|] eqn:Hstep; [|discriminate].
      destruct (led_step_threads c0 te c1 Hstep) as [H1 H2].
      destruct (IH c1 c Hexec) as [H3 H4].
      split; [|auto].
      unfold alert_calls in *. cbn [List.filter] in *.
      destruct (match snd te with Call_alert _ _ => true | _ => false end);
        cbn [length] in *; lia. }
  intros Hexec. destruct (Hgen run (led_init t0) c Hexec) as [H1 H2].
  split; [simpl in H1; lia|apply H2; reflexivity].
Qed.

Lemma one_thread_per_alert_witness :
  match led_exec (led_init 0) overlap_run with
  | Some c => (length (threads c) + in_alert (caller c))%nat = 2%nat
  | None => False
  end.
Proof.
  destruct (led_exec (led_init 0) overlap_run) as [c|] eqn:Hexec.
  - exact (proj1 (one_thread_per_alert 0 overlap_run c Hexec)).
  - vm_compute in Hexec. discriminate.
Defined.
